(** * Atlas manager view (brainrender-napari)

    A shallow embedding of
    [src/brainrender_napari/widgets/atlas_manager_view.py].

    The view is glue between a Qt table, confirmation dialogs, napari
    thread workers and the BrainGlobe atlas API.  The embedding keeps the
    methods of [AtlasManagerView] as functions over an explicit world
    state: the attributes of the view itself, the dialogs it has opened,
    the workers it has started, the signals it has emitted, and the
    current answers of the external atlas API.

    Handlers run one at a time on the interactive thread, so each event
    (a double-click, a press on a dialog's ok button, a progress report or
    the return of a worker, a tooltip request) is one step on the world.
    A dialog stays available until its ok button is pressed, and the
    answers of the API may change between any two events.

    In the events, the listing functions of the API answer; how a
    confirmation ends when one of them raises is stated apart, on
    [confirmed_with].  The signals pass their arguments as Qt does for
    the declared types: [str_argument] for the completion signals and
    [int_argument] for the counts of [progress_updated]. *)

From stdpp Require Import base gmap strings list.
From Stdlib Require Import ZArith.

Open Scope string_scope.

(** ** Python exceptions and results *)

Inductive PyExc : Type :=
| AssertionError
| AttributeError (attr : string)
| KeyError (key : string)
| ValueError (msg : string)
| TypeError.

Inductive res (A : Type) : Type :=
| Ok (a : A)
| Raise (e : PyExc).

Arguments Ok {A} a.
Arguments Raise {A} e.

Definition raises {A : Type} (r : res A) : bool :=
  match r with Ok _ => false | Raise _ => true end.

(** ** Python values that cross a Qt signal

    What [install_atlas] and [update_atlas] return is up to the API; the
    view hands it to a signal as it comes.  The values told apart here
    are [None], a [str] and an [int]. *)

Inductive PyValue : Type :=
| PyNone
| PyStr (s : string)
| PyInt (n : Z).

Coercion PyStr : string >-> PyValue.

(** The argument of a signal declared [Signal(str)]: a [str] is passed as
    it is, [None] arrives as the empty string, and an [int] is refused
    with [TypeError] before anything is emitted. *)
Definition str_argument (v : PyValue) : res string :=
  match v with
  | PyNone => Ok ""
  | PyStr s => Ok s
  | PyInt _ => Raise TypeError
  end.

(** An [int] argument of a signal declared [Signal(int, ...)] is a C
    [int]: a Python integer outside the signed 32-bit range wraps around
    modulo 2^32. *)
Definition int_argument (n : Z) : Z :=
  ((n + 2 ^ 31) mod 2 ^ 32 - 2 ^ 31)%Z.

(** ** The external atlas API (brainglobe_atlasapi)

    Only the answers of the three listing functions matter to the view.
    An entry of [get_atlases_lastversions] is a dict of which the view
    reads the key ["updated"] only. *)

Record AtlasVersion : Type := { updated : bool }.

#[global] Instance AtlasVersion_eq_dec : EqDecision AtlasVersion.
Proof. solve_decision. Defined.

Record AtlasApi : Type := {
  get_downloaded_atlases : gset string;
  get_atlases_lastversions : gmap string AtlasVersion;
  get_all_atlases_lastversions : gmap string string
}.

(** ** Qt model indices and the table model

    [AtlasTableModel] lives in another module; the view only calls its
    [data] method, which is taken as a field here. *)

Record QModelIndex : Type := { isValid : bool; row : Z; column : Z }.

Definition siblingAtColumn (i : QModelIndex) (c : Z) : QModelIndex :=
  {| isValid := isValid i; row := row i; column := c |}.

Record AtlasTableModel : Type := { data : QModelIndex -> string }.

(** ** Signals, dialogs and workers *)

(** The two completion signals of the view, [Signal(str)] in the source.
    [progress_updated], a [Signal(int, int, str, object)], has its own
    payload and is a separate emission. *)
Inductive Signal : Type :=
| download_atlas_confirmed
| update_atlas_confirmed.

(** The bound methods that the view connects to a dialog's [ok_button]. *)
Inductive Slot : Type :=
| slot_on_download_atlas_confirmed
| slot_on_update_atlas_confirmed.

(** Modelled from the spec: the class [AtlasManagerDialog] of
    [brainrender_napari.widgets.atlas_manager_dialog] is not among the
    sources.  Section 4.2 of the spec gives the contract the view relies
    on: the dialog is "constructed with an atlas name and an action
    label", it "exposes an acknowledgement control whose activation is
    observable", and it is "opened non-blocking (does not halt the
    caller)".  The record keeps the two constructor arguments, the slots
    connected to [ok_button.clicked], and whether [open()] has been
    called. *)
Record AtlasManagerDialog : Type := {
  dialog_atlas_name : string;
  dialog_action : string;
  ok_button_clicked : list Slot;
  dialog_opened : bool
}.

(** Modelled from the spec: the constructor of [AtlasManagerDialog], which
    is not among the sources.  By section 4.2 of the spec a dialog is
    "constructed with an atlas name and an action label"; the spec names
    no case in which the construction fails. *)
Definition AtlasManagerDialog_new (atlas_name action : string)
    : AtlasManagerDialog :=
  {| dialog_atlas_name := atlas_name; dialog_action := action;
     ok_button_clicked := []; dialog_opened := false |}.

(** [dialog.ok_button.clicked.connect(slot)]. *)
Definition ok_button_connect (d : AtlasManagerDialog) (slot : Slot)
    : AtlasManagerDialog :=
  {| dialog_atlas_name := dialog_atlas_name d;
     dialog_action := dialog_action d;
     ok_button_clicked := ok_button_clicked d ++ [slot];
     dialog_opened := dialog_opened d |}.

(** The API operations a worker can wrap. *)
Inductive Operation : Type :=
| install_atlas
| update_atlas.

(** The closure [update_fn] of [_start_worker]: it captures [atlas_name]
    and [operation_type] of the enclosing call. *)
Record update_fn : Type := {
  captured_atlas_name : string;
  captured_operation_type : string
}.

Inductive WorkerStatus : Type :=
| Created
| Running
| Finished.

(** A napari [thread_worker] object produced by [_apply_in_thread]:
    the function to apply, its positional argument, the [fn_update]
    keyword argument, the signals re-emitted from [returned], and the
    thread's status. *)
Record Worker : Type := {
  worker_apply : Operation;
  worker_arg : string;
  worker_fn_update : update_fn;
  worker_returned : list Signal;
  worker_status : WorkerStatus
}.

(** ** The view's own attributes

    [cached_downloaded_atlases] and [cached_atlas_versions] are plain
    Python attributes; [None] stands for an attribute that has not been
    assigned yet. *)
Record AtlasManagerView : Type := {
  model : AtlasTableModel;
  currentIndex : QModelIndex;
  cached_downloaded_atlases : option (gset string);
  cached_atlas_versions : option (gmap string AtlasVersion)
}.

Definition invalid_index : QModelIndex :=
  {| isValid := false; row := -1; column := -1 |}.

(** [__init__]: the table model is attached, nothing is selected, and the
    two cache attributes are not assigned. *)
Definition __init__ (m : AtlasTableModel) : AtlasManagerView :=
  {| model := m;
     currentIndex := invalid_index;
     cached_downloaded_atlases := None;
     cached_atlas_versions := None |}.

(** [selected_atlas_name]: a single place to get a valid selected atlas name. *)
Definition selected_atlas_name (self : AtlasManagerView) : res string :=
  let selected_index := currentIndex self in
  if isValid selected_index then
    let selected_atlas_name_index := siblingAtColumn selected_index 0 in
    Ok (data (model self) selected_atlas_name_index)
  else Raise AssertionError.

Section View.

(** [format_atlas_name] comes from [brainrender_napari.utils.formatting]. *)
Variable format_atlas_name : string -> string.

Definition get_tooltip_text (api : AtlasApi) (atlas_name : string) : res string :=
  if decide (atlas_name ∈ get_downloaded_atlases api) then
    match get_atlases_lastversions api !! atlas_name with
    | None => Raise (KeyError atlas_name)
    | Some entry =>
        let is_up_to_date := updated entry in
        if is_up_to_date then
          Ok (format_atlas_name atlas_name ++ " is up-to-date")
        else
          Ok (format_atlas_name atlas_name ++ " (double-click to update)")
    end
  else if decide (atlas_name ∈ dom (get_all_atlases_lastversions api)) then
    Ok (format_atlas_name atlas_name ++ " (double-click to download)")
  else
    Raise (ValueError "Tooltip text called with invalid atlas name.").

(** *** The world around the view and the handler monad *)

(** What a listener receives: the [str] of a completion signal, or the
    four arguments of [progress_updated]. *)
Inductive Emission : Type :=
| emit (signal : Signal) (payload : string)
| emit_progress_updated (completed total : Z) (atlas_name operation_type : string).

Record World : Type := {
  view : AtlasManagerView;
  api : AtlasApi;
  dialogs : list AtlasManagerDialog;
  workers : list Worker;
  emitted : list Emission
}.

(** A handler runs on the world; what it did before raising stays done. *)
Definition M (A : Type) : Type := World -> res A * World.

#[local] Instance M_ret : MRet M := fun A a w => (Ok a, w).

#[local] Instance M_bind : MBind M := fun A B f m w =>
  match m w with
  | (Ok a, w') => f a w'
  | (Raise e, w') => (Raise e, w')
  end.

Definition lift_res {A : Type} (r : res A) : M A := fun w => (r, w).

(** [self.selected_atlas_name()] called from inside a handler. *)
Definition self_selected_atlas_name : M string := fun w =>
  (selected_atlas_name (view w), w).

Definition getattr {A : Type} (field : AtlasManagerView -> option A)
    (attr : string) : M A := fun w =>
  match field (view w) with
  | Some a => (Ok a, w)
  | None => (Raise (AttributeError attr), w)
  end.

Definition getitem {V : Type} (d : gmap string V) (key : string) : M V :=
  fun w =>
  match d !! key with
  | Some v => (Ok v, w)
  | None => (Raise (KeyError key), w)
  end.

Definition signal_emit (e : Emission) : M unit := fun w =>
  (Ok tt, {| view := view w; api := api w; dialogs := dialogs w;
             workers := workers w; emitted := emitted w ++ [e] |}).

(** [dialog.open()]: the dialog is shown and the call returns at once. *)
Definition dialog_open (d : AtlasManagerDialog) : M unit := fun w =>
  (Ok tt, {| view := view w; api := api w;
             dialogs := dialogs w ++
               [ {| dialog_atlas_name := dialog_atlas_name d;
                    dialog_action := dialog_action d;
                    ok_button_clicked := ok_button_clicked d;
                    dialog_opened := true |} ];
             workers := workers w; emitted := emitted w |}).

(** [worker.start()]: the thread is handed to the pool. *)
Definition worker_start (k : Worker) : M unit := fun w =>
  (Ok tt, {| view := view w; api := api w; dialogs := dialogs w;
             workers := workers w ++
               [ {| worker_apply := worker_apply k;
                    worker_arg := worker_arg k;
                    worker_fn_update := worker_fn_update k;
                    worker_returned := worker_returned k;
                    worker_status := Running |} ];
             emitted := emitted w |}).

(** *** Methods of [AtlasManagerView] *)

Definition _on_row_double_clicked : M unit :=
  atlas_name ← self_selected_atlas_name;
  cached ← getattr cached_downloaded_atlases "cached_downloaded_atlases";
  if decide (atlas_name ∈ cached) then
    versions ← getattr cached_atlas_versions "cached_atlas_versions";
    entry ← getitem versions atlas_name;
    let up_to_date := updated entry in
    if negb up_to_date then
      let update_dialog := AtlasManagerDialog_new atlas_name "Update" in
      let update_dialog :=
        ok_button_connect update_dialog slot_on_update_atlas_confirmed in
      dialog_open update_dialog
    else mret tt
  else
    let download_dialog := AtlasManagerDialog_new atlas_name "Download" in
    let download_dialog :=
      ok_button_connect download_dialog slot_on_download_atlas_confirmed in
    dialog_open download_dialog.

(** [_apply_in_thread]: the decorated method only builds the worker. *)
Definition _apply_in_thread (apply : Operation) (arg : string)
    (fn_update : update_fn) : Worker :=
  {| worker_apply := apply; worker_arg := arg; worker_fn_update := fn_update;
     worker_returned := []; worker_status := Created |}.

Definition returned_connect (k : Worker) (signal : Signal) : Worker :=
  {| worker_apply := worker_apply k; worker_arg := worker_arg k;
     worker_fn_update := worker_fn_update k;
     worker_returned := worker_returned k ++ [signal];
     worker_status := worker_status k |}.

Definition _start_worker (operation : Operation) (atlas_name : string)
    (signal : Signal) (operation_type : string) : M unit :=
  let update_fn :=
    {| captured_atlas_name := atlas_name;
       captured_operation_type := operation_type |} in
  let worker := _apply_in_thread operation atlas_name update_fn in
  let worker := returned_connect worker signal in
  worker_start worker.

(** [self.cached_downloaded_atlases = value]. *)
Definition set_cached_downloaded_atlases (value : gset string) : M unit :=
  fun w =>
  let self := view w in
  (Ok tt,
   {| view :=
        {| model := model self; currentIndex := currentIndex self;
           cached_downloaded_atlases := Some value;
           cached_atlas_versions := cached_atlas_versions self |};
      api := api w; dialogs := dialogs w; workers := workers w;
      emitted := emitted w |}).

(** [self.cached_atlas_versions = value]. *)
Definition set_cached_atlas_versions (value : gmap string AtlasVersion)
    : M unit := fun w =>
  let self := view w in
  (Ok tt,
   {| view :=
        {| model := model self; currentIndex := currentIndex self;
           cached_downloaded_atlases := cached_downloaded_atlases self;
           cached_atlas_versions := Some value |};
      api := api w; dialogs := dialogs w; workers := workers w;
      emitted := emitted w |}).

(** The body of [_refresh_cached_atlases], given how its two calls of the
    API end: each call answers or raises, and each answer is assigned
    before the next call is made. *)
Definition refresh_cached_atlases_with
    (downloaded_call : res (gset string))
    (versions_call : res (gmap string AtlasVersion)) : M unit :=
  downloaded ← lift_res downloaded_call;
  set_cached_downloaded_atlases downloaded;;
  versions ← lift_res versions_call;
  set_cached_atlas_versions versions.

(** [_refresh_cached_atlases] when both calls of the API answer. *)
Definition _refresh_cached_atlases : M unit := fun w =>
  refresh_cached_atlases_with
    (Ok (get_downloaded_atlases (api w)))
    (Ok (get_atlases_lastversions (api w))) w.

(** The body that [_on_download_atlas_confirmed] and
    [_on_update_atlas_confirmed] share, given how the two calls of the API
    in the refresh end. *)
Definition confirmed_with (operation : Operation) (signal : Signal)
    (operation_type : string) (downloaded_call : res (gset string))
    (versions_call : res (gmap string AtlasVersion)) : M unit :=
  atlas_name ← self_selected_atlas_name;
  _start_worker operation atlas_name signal operation_type;;
  refresh_cached_atlases_with downloaded_call versions_call.

Definition _on_download_atlas_confirmed : M unit :=
  atlas_name ← self_selected_atlas_name;
  _start_worker install_atlas atlas_name download_atlas_confirmed "Downloading";;
  _refresh_cached_atlases.

Definition _on_update_atlas_confirmed : M unit :=
  atlas_name ← self_selected_atlas_name;
  _start_worker update_atlas atlas_name update_atlas_confirmed "Updating";;
  _refresh_cached_atlases.

(** *** What the toolkit, the user and the API do to the view *)

(** [self.progress_updated.emit(completed, total, atlas_name,
    operation_type)]: the two counts are passed as [int] arguments. *)
Definition progress_updated_emit (completed total : Z)
    (atlas_name operation_type : string) : M unit :=
  signal_emit (emit_progress_updated (int_argument completed)
                 (int_argument total) atlas_name operation_type).

(** The closure [update_fn(completed, total)] of [_start_worker]. *)
Definition call_update_fn (f : update_fn) (completed total : Z) : M unit :=
  progress_updated_emit completed total
    (captured_atlas_name f) (captured_operation_type f).

(** [signal.emit(result)] on a [Signal(str)]: the argument is converted
    first, and nothing is emitted when the conversion raises. *)
Definition signal_str_emit (signal : Signal) (result : PyValue) : M unit :=
  payload ← lift_res (str_argument result);
  signal_emit (emit signal payload).

(** [lambda result: signal.emit(result)], once per connection. *)
Fixpoint emit_returned (signals : list Signal) (result : PyValue) : M unit :=
  match signals with
  | [] => mret tt
  | signal :: rest => signal_str_emit signal result;; emit_returned rest result
  end.

Definition finish (k : Worker) : Worker :=
  {| worker_apply := worker_apply k; worker_arg := worker_arg k;
     worker_fn_update := worker_fn_update k;
     worker_returned := worker_returned k;
     worker_status := Finished |}.

Definition set_worker (j : nat) (k : Worker) : M unit := fun w =>
  (Ok tt, {| view := view w; api := api w; dialogs := dialogs w;
             workers := <[ j := k ]> (workers w); emitted := emitted w |}).

(** The operation of running worker [j] reports progress. *)
Definition worker_progress (j : nat) (completed total : Z) : M unit := fun w =>
  match workers w !! j with
  | Some k =>
      match worker_status k with
      | Running => call_update_fn (worker_fn_update k) completed total w
      | _ => (Ok tt, w)
      end
  | None => (Ok tt, w)
  end.

(** The operation of running worker [j] returns [result]: the thread
    ends and [returned] fires. *)
Definition worker_return (j : nat) (result : PyValue) : M unit := fun w =>
  match workers w !! j with
  | Some k =>
      match worker_status k with
      | Running =>
          (set_worker j (finish k);; emit_returned (worker_returned k) result) w
      | _ => (Ok tt, w)
      end
  | None => (Ok tt, w)
  end.

Definition run_slot (s : Slot) : M unit :=
  match s with
  | slot_on_download_atlas_confirmed => _on_download_atlas_confirmed
  | slot_on_update_atlas_confirmed => _on_update_atlas_confirmed
  end.

Fixpoint run_slots (slots : list Slot) : M unit :=
  match slots with
  | [] => mret tt
  | s :: rest => run_slot s;; run_slots rest
  end.

(** The user presses the ok button of the [i]-th dialog that was opened. *)
Definition ok_button_click (i : nat) : M unit := fun w =>
  match dialogs w !! i with
  | Some d => run_slots (ok_button_clicked d) w
  | None => (Ok tt, w)
  end.

Definition setCurrentIndex (i : QModelIndex) : M unit := fun w =>
  let self := view w in
  (Ok tt,
   {| view :=
        {| model := model self; currentIndex := i;
           cached_downloaded_atlases := cached_downloaded_atlases self;
           cached_atlas_versions := cached_atlas_versions self |};
      api := api w; dialogs := dialogs w; workers := workers w;
      emitted := emitted w |}).

Definition api_change (a : AtlasApi) : M unit := fun w =>
  (Ok tt, {| view := view w; api := a; dialogs := dialogs w;
             workers := workers w; emitted := emitted w |}).

Inductive Event : Type :=
| CurrentIndexChanged (i : QModelIndex)
| DoubleClicked
| OkClicked (dialog : nat)
| ProgressReported (worker : nat) (completed total : Z)
| WorkerReturned (worker : nat) (result : PyValue)
| ToolTipRequested (atlas_name : string)
| ApiChanged (a : AtlasApi).

Definition step (e : Event) : M unit :=
  match e with
  | CurrentIndexChanged i => setCurrentIndex i
  | DoubleClicked => _on_row_double_clicked
  | OkClicked i => ok_button_click i
  | ProgressReported j completed total => worker_progress j completed total
  | WorkerReturned j result => worker_return j result
  | ToolTipRequested atlas_name =>
      fun w => (lift_res (get_tooltip_text (api w) atlas_name);; mret tt) w
  | ApiChanged a => api_change a
  end.

(** The event loop goes on after a handler has raised. *)
Fixpoint run (events : list Event) (w : World) : World :=
  match events with
  | [] => w
  | e :: rest => run rest (step e w).2
  end.

(** The world right after the view has been constructed. *)
Definition fresh (m : AtlasTableModel) (a : AtlasApi) : World :=
  {| view := __init__ m; api := a; dialogs := []; workers := [];
     emitted := [] |}.

Definition cache (self : AtlasManagerView)
    : option (gset string) * option (gmap string AtlasVersion) :=
  (cached_downloaded_atlases self, cached_atlas_versions self).

End View.

(** ** Concrete worlds used in the examples below *)

Definition demo_api : AtlasApi :=
  {| get_downloaded_atlases := {[ "allen_mouse_100um"; "example_mouse_100um" ]};
     get_atlases_lastversions :=
       <[ "allen_mouse_100um" := {| updated := true |} ]>
       (<[ "example_mouse_100um" := {| updated := false |} ]> ∅);
     get_all_atlases_lastversions :=
       <[ "allen_mouse_100um" := "1.2" ]>
       (<[ "example_mouse_100um" := "1.2" ]>
       (<[ "mpin_zfish_1um" := "1.0" ]> ∅)) |}.

(** A local atlas that the latest-versions listing does not know. *)
Definition orphan_api : AtlasApi :=
  {| get_downloaded_atlases := {[ "custom_atlas_10um" ]};
     get_atlases_lastversions := ∅;
     get_all_atlases_lastversions := <[ "allen_mouse_100um" := "1.2" ]> ∅ |}.

(** The API after "mpin_zfish_1um" has been installed. *)
Definition demo_api_installed : AtlasApi :=
  {| get_downloaded_atlases :=
       {[ "allen_mouse_100um"; "example_mouse_100um"; "mpin_zfish_1um" ]};
     get_atlases_lastversions :=
       <[ "allen_mouse_100um" := {| updated := true |} ]>
       (<[ "example_mouse_100um" := {| updated := false |} ]>
       (<[ "mpin_zfish_1um" := {| updated := true |} ]> ∅));
     get_all_atlases_lastversions := get_all_atlases_lastversions demo_api |}.

(** Three rows; column 0 holds the raw name, the other columns are display
    columns. *)
Definition demo_model : AtlasTableModel :=
  {| data := fun i =>
       if (column i =? 0)%Z then
         if (row i =? 0)%Z then "allen_mouse_100um"
         else if (row i =? 1)%Z then "example_mouse_100um"
         else "mpin_zfish_1um"
       else "display" |}.

Definition at_row (r : Z) : QModelIndex :=
  {| isValid := true; row := r; column := 1 |}.

(** A view on [demo_model] whose cache agrees with [demo_api], with the
    row [r] selected. *)
Definition demo_view (r : Z) : AtlasManagerView :=
  {| model := demo_model; currentIndex := at_row r;
     cached_downloaded_atlases := Some (get_downloaded_atlases demo_api);
     cached_atlas_versions := Some (get_atlases_lastversions demo_api) |}.

Definition demo_world (r : Z) : World :=
  {| view := demo_view r; api := demo_api; dialogs := []; workers := [];
     emitted := [] |}.

(** A view whose cache is empty although the API has two local atlases,
    with row 2 selected and its Download dialog already open. *)
Definition stale_world : World :=
  {| view :=
       {| model := demo_model; currentIndex := at_row 2;
          cached_downloaded_atlases := Some ∅;
          cached_atlas_versions := Some ∅ |};
     api := demo_api;
     dialogs :=
       [ {| dialog_atlas_name := "mpin_zfish_1um"; dialog_action := "Download";
            ok_button_clicked := [slot_on_download_atlas_confirmed];
            dialog_opened := true |} ];
     workers := []; emitted := [] |}.

(** One row for the local atlas of [orphan_api], the other rows for an
    atlas that the API does not list. *)
Definition orphan_model : AtlasTableModel :=
  {| data := fun i =>
       if (row i =? 0)%Z then "custom_atlas_10um" else "unlisted_atlas_1um" |}.

(** A view on [orphan_model] whose cache agrees with [orphan_api], with
    the row [r] selected. *)
Definition orphan_world (r : Z) : World :=
  {| view :=
       {| model := orphan_model; currentIndex := at_row r;
          cached_downloaded_atlases := Some (get_downloaded_atlases orphan_api);
          cached_atlas_versions := Some (get_atlases_lastversions orphan_api) |};
     api := orphan_api; dialogs := []; workers := []; emitted := [] |}.

(** The cache still holds the answers of [demo_api] while the API has
    come to list "mpin_zfish_1um" (row 2, selected) as downloaded. *)
Definition outdated_world : World :=
  {| view := demo_view 2; api := demo_api_installed; dialogs := [];
     workers := []; emitted := [] |}.

(** The dialog that a double-click opens, once [open()] has been called. *)
Definition opened_dialog (atlas_name action : string) (slot : Slot)
    : AtlasManagerDialog :=
  {| dialog_atlas_name := atlas_name; dialog_action := action;
     ok_button_clicked := [slot]; dialog_opened := true |}.

(** The worker that [_start_worker operation atlas_name signal
    operation_type] has handed to the pool. *)
Definition started_worker (operation : Operation) (atlas_name : string)
    (signal : Signal) (operation_type : string) : Worker :=
  {| worker_apply := operation; worker_arg := atlas_name;
     worker_fn_update :=
       {| captured_atlas_name := atlas_name;
          captured_operation_type := operation_type |};
     worker_returned := [signal]; worker_status := Running |}.

(** The view after [_refresh_cached_atlases] has run against the API [a]. *)
Definition refreshed (self : AtlasManagerView) (a : AtlasApi) : AtlasManagerView :=
  {| model := model self; currentIndex := currentIndex self;
     cached_downloaded_atlases := Some (get_downloaded_atlases a);
     cached_atlas_versions := Some (get_atlases_lastversions a) |}.

(** Two worker records describe the same task: only the status may differ. *)
Definition same_task (k k' : Worker) : Prop :=
  worker_apply k' = worker_apply k ∧ worker_arg k' = worker_arg k ∧
  worker_fn_update k' = worker_fn_update k ∧
  worker_returned k' = worker_returned k.

Definition is_running (k : Worker) : Prop := worker_status k = Running.

Definition is_ok_click (e : Event) : bool :=
  match e with OkClicked _ => true | _ => false end.

(** Neither cache attribute has been assigned and no dialog has been opened. *)
Definition uninitialised (w : World) : Prop :=
  cache (view w) = (None, None) ∧ dialogs w = [].

(** The worker that the confirmation handler behind [slot] starts for
    [atlas_name]. *)
Definition slot_worker (slot : Slot) (atlas_name : string) : Worker :=
  match slot with
  | slot_on_download_atlas_confirmed =>
      started_worker install_atlas atlas_name download_atlas_confirmed
        "Downloading"
  | slot_on_update_atlas_confirmed =>
      started_worker update_atlas atlas_name update_atlas_confirmed "Updating"
  end.

(** A dialog as [_on_row_double_clicked] opens them: one slot connected,
    and the action label goes with the slot. *)
Definition dialog_well_formed (d : AtlasManagerDialog) : Prop :=
  d = opened_dialog (dialog_atlas_name d) "Download"
        slot_on_download_atlas_confirmed ∨
  d = opened_dialog (dialog_atlas_name d) "Update"
        slot_on_update_atlas_confirmed.

(** A worker as [_start_worker] is called by the two confirmation
    handlers: operation, signal and operation kind go together, and the
    progress callback has captured the worker's own argument. *)
Definition worker_well_formed (k : Worker) : Prop :=
  same_task (slot_worker slot_on_download_atlas_confirmed (worker_arg k)) k ∨
  same_task (slot_worker slot_on_update_atlas_confirmed (worker_arg k)) k.

Definition well_formed (w : World) : Prop :=
  Forall dialog_well_formed (dialogs w) ∧ Forall worker_well_formed (workers w).

(** The signal that goes with an operation. *)
Definition operation_signal (operation : Operation) : Signal :=
  match operation with
  | install_atlas => download_atlas_confirmed
  | update_atlas => update_atlas_confirmed
  end.

(** The operation kind that goes with an operation. *)
Definition operation_kind (operation : Operation) : string :=
  match operation with
  | install_atlas => "Downloading"
  | update_atlas => "Updating"
  end.

Definition is_double_click (e : Event) : bool :=
  match e with DoubleClicked => true | _ => false end.

Definition is_worker_event (e : Event) : bool :=
  match e with
  | ProgressReported _ _ _ | WorkerReturned _ _ => true
  | _ => false
  end.

(** Events that neither press ok nor move the current index. *)
Definition keeps_view (e : Event) : bool :=
  match e with
  | OkClicked _ | CurrentIndexChanged _ => false
  | _ => true
  end.

(** * Properties *)

(** Unfolds the handler monad down to matches on the world. *)
Ltac unfold_M :=
  unfold mbind, mret, M_bind, M_ret, lift_res, self_selected_atlas_name,
    getattr, getitem, signal_emit, dialog_open, worker_start, set_worker,
    setCurrentIndex, api_change in *.

Section TooltipProperties.

Variable format_atlas_name : string -> string.

Local Abbreviation tooltip := (get_tooltip_text format_atlas_name).

(** Which of the four branches [get_tooltip_text] takes. *)
Lemma get_tooltip_text_spec (a : AtlasApi) (atlas_name : string) :
  tooltip a atlas_name =
    if decide (atlas_name ∈ get_downloaded_atlases a) then
      match get_atlases_lastversions a !! atlas_name with
      | Some entry =>
          Ok (format_atlas_name atlas_name ++
              (if updated entry then " is up-to-date"
               else " (double-click to update)"))
      | None => Raise (KeyError atlas_name)
      end
    else if decide (atlas_name ∈ dom (get_all_atlases_lastversions a)) then
      Ok (format_atlas_name atlas_name ++ " (double-click to download)")
    else Raise (ValueError "Tooltip text called with invalid atlas name.").
Proof.
  unfold get_tooltip_text.
  repeat case_decide; try done.
  destruct (get_atlases_lastversions a !! atlas_name) as [[[]]|]; done.
Qed.

(** C3: the three tooltip texts.  A downloaded atlas whose
    latest-versions entry says [updated] yields "<formatted name> is
    up-to-date", one whose entry says not [updated] yields "<formatted
    name> (double-click to update)", and an atlas that is not downloaded
    but is a key of the all-latest-versions mapping yields "<formatted
    name> (double-click to download)". *)
Theorem get_tooltip_text_texts (a : AtlasApi) (atlas_name : string) :
  (∀ entry,
      atlas_name ∈ get_downloaded_atlases a →
      get_atlases_lastversions a !! atlas_name = Some entry →
      updated entry = true →
      tooltip a atlas_name = Ok (format_atlas_name atlas_name ++ " is up-to-date")) ∧
  (∀ entry,
      atlas_name ∈ get_downloaded_atlases a →
      get_atlases_lastversions a !! atlas_name = Some entry →
      updated entry = false →
      tooltip a atlas_name =
        Ok (format_atlas_name atlas_name ++ " (double-click to update)")) ∧
  (atlas_name ∉ get_downloaded_atlases a →
   atlas_name ∈ dom (get_all_atlases_lastversions a) →
   tooltip a atlas_name =
     Ok (format_atlas_name atlas_name ++ " (double-click to download)")).
Proof.
  rewrite get_tooltip_text_spec.
  split_and!.
  - intros entry Hin -> ->. by rewrite decide_True.
  - intros entry Hin -> ->. by rewrite decide_True.
  - intros Hout Hknown. by rewrite decide_False, decide_True.
Qed.

(** C4, as the code has it: [get_tooltip_text] raises exactly when the
    name is absent from both the downloaded set and the
    all-latest-versions mapping (a [ValueError]) or when it is in the
    downloaded set without an entry in the latest-versions mapping (a
    [KeyError]); in every other case it returns a string. *)
Theorem get_tooltip_text_raises_iff (a : AtlasApi) (atlas_name : string) :
  (tooltip a atlas_name =
     Raise (ValueError "Tooltip text called with invalid atlas name.") ↔
   (atlas_name ∉ get_downloaded_atlases a) ∧
   (atlas_name ∉ dom (get_all_atlases_lastversions a))) ∧
  (tooltip a atlas_name = Raise (KeyError atlas_name) ↔
   atlas_name ∈ get_downloaded_atlases a ∧
   get_atlases_lastversions a !! atlas_name = None) ∧
  (raises (tooltip a atlas_name) = false ↔
   (atlas_name ∈ get_downloaded_atlases a ∧
    is_Some (get_atlases_lastversions a !! atlas_name)) ∨
   ((atlas_name ∉ get_downloaded_atlases a) ∧
    atlas_name ∈ dom (get_all_atlases_lastversions a))).
Proof.
  rewrite get_tooltip_text_spec.
  destruct (decide (atlas_name ∈ get_downloaded_atlases a)) as [Hin|Hout].
  - destruct (get_atlases_lastversions a !! atlas_name) as [entry|] eqn:Hv;
      simpl; split_and!; split; intros Hyp; try done;
      try (by destruct Hyp); try (by destruct entry as [[]]).
    all: try (left; split; [done | by eexists]).
    all: try (destruct Hyp as [[_ [entry' Hentry]]|[Hout _]]; done).
    all: try (destruct entry as [[]]; done).
  - destruct (decide (atlas_name ∈ dom (get_all_atlases_lastversions a)))
      as [Hknown|Hunknown]; simpl; split_and!; split; intros Hyp; try done;
      try (by destruct Hyp).
    all: try (by right).
    all: try (destruct Hyp as [[Hin _]|[_ Hknown]]; done).
Qed.

End TooltipProperties.

(** C3 at work on [demo_api]. *)
Lemma get_tooltip_text_texts_witness :
  get_tooltip_text id demo_api "allen_mouse_100um" = Ok "allen_mouse_100um is up-to-date" ∧
  get_tooltip_text id demo_api "example_mouse_100um" =
    Ok "example_mouse_100um (double-click to update)" ∧
  get_tooltip_text id demo_api "mpin_zfish_1um" =
    Ok "mpin_zfish_1um (double-click to download)".
Proof.
  split_and!.
  - apply (proj1 (get_tooltip_text_texts id demo_api "allen_mouse_100um")
             {| updated := true |}); [compute_done | reflexivity | reflexivity].
  - apply (proj1 (proj2 (get_tooltip_text_texts id demo_api "example_mouse_100um"))
             {| updated := false |}); [compute_done | reflexivity | reflexivity].
  - apply (proj2 (proj2 (get_tooltip_text_texts id demo_api "mpin_zfish_1um")));
      compute_done.
Defined.

(** C4 as stated fails: "custom_atlas_10um" is in the downloaded set of
    [orphan_api], yet the tooltip lookup raises. *)
Lemma get_tooltip_text_downloaded_raises :
  "custom_atlas_10um" ∈ get_downloaded_atlases orphan_api ∧
  get_tooltip_text id orphan_api "custom_atlas_10um" =
    Raise (KeyError "custom_atlas_10um").
Proof. split; [compute_done | reflexivity]. Qed.

Lemma get_tooltip_text_raises_iff_witness :
  get_tooltip_text id orphan_api "custom_atlas_10um" =
    Raise (KeyError "custom_atlas_10um") ∧
  get_tooltip_text id orphan_api "unknown" =
    Raise (ValueError "Tooltip text called with invalid atlas name.") ∧
  raises (get_tooltip_text id demo_api "mpin_zfish_1um") = false.
Proof.
  split_and!.
  - apply (proj1 (proj2 (get_tooltip_text_raises_iff id orphan_api "custom_atlas_10um"))).
    split; [compute_done | reflexivity].
  - apply (proj1 (get_tooltip_text_raises_iff id orphan_api "unknown")).
    split; compute_done.
  - apply (proj2 (proj2 (get_tooltip_text_raises_iff id demo_api "mpin_zfish_1um"))).
    right. split; compute_done.
Defined.

(** ** The selection accessor *)

(** C9: with a valid current index, [selected_atlas_name] passes its
    assertion and returns the model's data at column 0 of the selected
    row; with an invalid current index it fails the assertion. *)
Theorem selected_atlas_name_contract (self : AtlasManagerView) :
  (isValid (currentIndex self) = true →
   selected_atlas_name self =
     Ok (data (model self)
           {| isValid := true; row := row (currentIndex self); column := 0 |})) ∧
  (isValid (currentIndex self) = false →
   selected_atlas_name self = Raise AssertionError).
Proof.
  unfold selected_atlas_name, siblingAtColumn.
  split; intros ->; reflexivity.
Qed.

Lemma selected_atlas_name_contract_witness :
  selected_atlas_name (demo_view 1) = Ok "example_mouse_100um" ∧
  selected_atlas_name (__init__ demo_model) = Raise AssertionError.
Proof.
  split.
  - apply (proj1 (selected_atlas_name_contract (demo_view 1))). reflexivity.
  - apply (proj2 (selected_atlas_name_contract (__init__ demo_model))). reflexivity.
Defined.

(** ** What each handler does to the world *)

Section Handlers.


Implicit Types (w : World) (atlas_name : string).

Lemma double_click_not_downloaded w atlas_name downloaded :
  selected_atlas_name (view w) = Ok atlas_name →
  cached_downloaded_atlases (view w) = Some downloaded →
  atlas_name ∉ downloaded →
  _on_row_double_clicked w =
    (Ok tt,
     {| view := view w; api := api w;
        dialogs := dialogs w ++
          [opened_dialog atlas_name "Download" slot_on_download_atlas_confirmed];
        workers := workers w; emitted := emitted w |}).
Proof.
  intros Hsel Hcache Hout.
  unfold _on_row_double_clicked. unfold_M.
  rewrite Hsel, Hcache. by rewrite decide_False.
Qed.

Lemma double_click_stale w atlas_name downloaded versions entry :
  selected_atlas_name (view w) = Ok atlas_name →
  cached_downloaded_atlases (view w) = Some downloaded →
  atlas_name ∈ downloaded →
  cached_atlas_versions (view w) = Some versions →
  versions !! atlas_name = Some entry →
  updated entry = false →
  _on_row_double_clicked w =
    (Ok tt,
     {| view := view w; api := api w;
        dialogs := dialogs w ++
          [opened_dialog atlas_name "Update" slot_on_update_atlas_confirmed];
        workers := workers w; emitted := emitted w |}).
Proof.
  intros Hsel Hcache Hin Hversions Hentry Hstale.
  unfold _on_row_double_clicked. unfold_M.
  rewrite Hsel, Hcache. rewrite decide_True by done.
  by rewrite Hversions, Hentry, Hstale.
Qed.

Lemma double_click_up_to_date w atlas_name downloaded versions entry :
  selected_atlas_name (view w) = Ok atlas_name →
  cached_downloaded_atlases (view w) = Some downloaded →
  atlas_name ∈ downloaded →
  cached_atlas_versions (view w) = Some versions →
  versions !! atlas_name = Some entry →
  updated entry = true →
  _on_row_double_clicked w = (Ok tt, w).
Proof.
  intros Hsel Hcache Hin Hversions Hentry Hfresh.
  unfold _on_row_double_clicked. unfold_M.
  rewrite Hsel, Hcache. rewrite decide_True by done.
  by rewrite Hversions, Hentry, Hfresh.
Qed.

(** A double-click either leaves the world as it was or opens one dialog. *)
Lemma double_click_effect w :
  (_on_row_double_clicked w).2 = w ∨
  ∃ d, _on_row_double_clicked w =
         (Ok tt,
          {| view := view w; api := api w; dialogs := dialogs w ++ [d];
             workers := workers w; emitted := emitted w |}).
Proof.
  unfold _on_row_double_clicked. unfold_M.
  destruct (selected_atlas_name (view w)) as [atlas_name|]; [|by left].
  destruct (cached_downloaded_atlases (view w)) as [downloaded|]; [|by left].
  case_decide.
  - destruct (cached_atlas_versions (view w)) as [versions|]; [|by left].
    destruct (versions !! atlas_name) as [[[]]|]; simpl; eauto.
  - eauto.
Qed.

Lemma download_confirmed_selected w atlas_name :
  selected_atlas_name (view w) = Ok atlas_name →
  _on_download_atlas_confirmed w =
    (Ok tt,
     {| view :=
          {| model := model (view w); currentIndex := currentIndex (view w);
             cached_downloaded_atlases := Some (get_downloaded_atlases (api w));
             cached_atlas_versions := Some (get_atlases_lastversions (api w)) |};
        api := api w; dialogs := dialogs w;
        workers := workers w ++
          [started_worker install_atlas atlas_name download_atlas_confirmed
             "Downloading"];
        emitted := emitted w |}).
Proof.
  intros Hsel.
  unfold _on_download_atlas_confirmed, _start_worker, _refresh_cached_atlases.
  unfold_M. by rewrite Hsel.
Qed.

Lemma update_confirmed_selected w atlas_name :
  selected_atlas_name (view w) = Ok atlas_name →
  _on_update_atlas_confirmed w =
    (Ok tt,
     {| view :=
          {| model := model (view w); currentIndex := currentIndex (view w);
             cached_downloaded_atlases := Some (get_downloaded_atlases (api w));
             cached_atlas_versions := Some (get_atlases_lastversions (api w)) |};
        api := api w; dialogs := dialogs w;
        workers := workers w ++
          [started_worker update_atlas atlas_name update_atlas_confirmed
             "Updating"];
        emitted := emitted w |}).
Proof.
  intros Hsel.
  unfold _on_update_atlas_confirmed, _start_worker, _refresh_cached_atlases.
  unfold_M. by rewrite Hsel.
Qed.

Lemma confirmed_unselected w e (s : Slot) :
  selected_atlas_name (view w) = Raise e →
  run_slot s w = (Raise e, w).
Proof.
  intros Hsel.
  destruct s; simpl;
    unfold _on_download_atlas_confirmed, _on_update_atlas_confirmed;
    unfold_M; by rewrite Hsel.
Qed.

Lemma emit_returned_accepted signals (result : PyValue) payload w :
  str_argument result = Ok payload →
  emit_returned signals result w =
    (Ok tt,
     {| view := view w; api := api w; dialogs := dialogs w;
        workers := workers w;
        emitted := emitted w ++ map (fun signal => emit signal payload) signals |}).
Proof.
  intros Hpayload.
  revert w. induction signals as [|signal rest IH]; intros w; simpl.
  - unfold_M. rewrite app_nil_r. by destruct w.
  - unfold signal_str_emit. unfold_M. rewrite Hpayload, IH. simpl.
    by rewrite <- app_assoc.
Qed.

Lemma emit_returned_refused signal rest (result : PyValue) exc w :
  str_argument result = Raise exc →
  emit_returned (signal :: rest) result w = (Raise exc, w).
Proof.
  intros Hrefused. simpl. unfold signal_str_emit. unfold_M.
  by rewrite Hrefused.
Qed.

Lemma worker_return_accepted w j k (result : PyValue) payload :
  workers w !! j = Some k →
  is_running k →
  str_argument result = Ok payload →
  worker_return j result w =
    (Ok tt,
     {| view := view w; api := api w; dialogs := dialogs w;
        workers := <[ j := finish k ]> (workers w);
        emitted := emitted w ++
          map (fun signal => emit signal payload) (worker_returned k) |}).
Proof.
  intros Hk Hrun Hpayload. unfold worker_return. rewrite Hk, Hrun.
  unfold_M. by rewrite (emit_returned_accepted _ _ _ _ Hpayload).
Qed.

Lemma worker_return_refused w j k signal rest (result : PyValue) exc :
  workers w !! j = Some k →
  is_running k →
  worker_returned k = signal :: rest →
  str_argument result = Raise exc →
  worker_return j result w =
    (Raise exc,
     {| view := view w; api := api w; dialogs := dialogs w;
        workers := <[ j := finish k ]> (workers w);
        emitted := emitted w |}).
Proof.
  intros Hk Hrun Hsignals Hrefused. unfold worker_return.
  rewrite Hk, Hrun, Hsignals.
  unfold_M. by rewrite (emit_returned_refused _ _ _ _ _ Hrefused).
Qed.

Lemma worker_return_running w j k (result : PyValue) :
  workers w !! j = Some k →
  is_running k →
  ∃ es,
    (worker_return j result w).2 =
      {| view := view w; api := api w; dialogs := dialogs w;
         workers := <[ j := finish k ]> (workers w);
         emitted := emitted w ++ es |}.
Proof.
  intros Hk Hrun.
  destruct (str_argument result) as [payload|exc] eqn:Hargument.
  - rewrite (worker_return_accepted _ _ _ _ _ Hk Hrun Hargument). by eexists.
  - destruct (worker_returned k) as [|signal rest] eqn:Hsignals.
    + unfold worker_return. rewrite Hk, Hrun, Hsignals. unfold_M. simpl.
      exists []. by rewrite app_nil_r.
    + rewrite (worker_return_refused _ _ _ _ _ _ _ Hk Hrun Hsignals Hargument).
      exists []. by rewrite app_nil_r.
Qed.

Lemma worker_return_idle w j (result : PyValue) :
  (∀ k, workers w !! j = Some k → ¬ is_running k) →
  worker_return j result w = (Ok tt, w).
Proof.
  intros Hidle. unfold worker_return.
  destruct (workers w !! j) as [k|] eqn:Hk; [|done].
  specialize (Hidle k eq_refl). unfold is_running in Hidle.
  by destruct (worker_status k).
Qed.

Lemma worker_progress_running w j k completed total :
  workers w !! j = Some k →
  is_running k →
  worker_progress j completed total w =
    (Ok tt,
     {| view := view w; api := api w; dialogs := dialogs w;
        workers := workers w;
        emitted := emitted w ++
          [emit_progress_updated (int_argument completed) (int_argument total)
             (captured_atlas_name (worker_fn_update k))
             (captured_operation_type (worker_fn_update k))] |}).
Proof.
  intros Hk Hrun. unfold worker_progress. by rewrite Hk, Hrun.
Qed.

Lemma worker_progress_effect w j completed total :
  ∃ es,
    worker_progress j completed total w =
      (Ok tt,
       {| view := view w; api := api w; dialogs := dialogs w;
          workers := workers w; emitted := emitted w ++ es |}).
Proof.
  unfold worker_progress.
  destruct (workers w !! j) as [k|];
    [destruct (worker_status k)|]; unfold call_update_fn, progress_updated_emit;
    unfold_M;
    try (exists []; rewrite app_nil_r; by destruct w); eauto.
Qed.

(** Pressing ok either changes nothing (the handler raised at once, or
    no slot is connected) or starts workers and refreshes the cache. *)
Lemma run_slots_effect slots w :
  (run_slots slots w).2 = w ∨
  ∃ ks, ks ≠ [] ∧ Forall is_running ks ∧
    (run_slots slots w).2 =
      {| view := refreshed (view w) (api w); api := api w;
         dialogs := dialogs w; workers := workers w ++ ks;
         emitted := emitted w |}.
Proof.
  revert w. induction slots as [|s rest IH]; intros w; [by left|].
  simpl. unfold mbind, M_bind.
  destruct (selected_atlas_name (view w)) as [atlas_name|e] eqn:Hsel.
  - right.
    assert (∃ k, is_running k ∧
              run_slot s w =
                (Ok tt,
                 {| view := refreshed (view w) (api w); api := api w;
                    dialogs := dialogs w; workers := workers w ++ [k];
                    emitted := emitted w |})) as (k & Hk & ->).
    { destruct s; simpl;
        [rewrite (download_confirmed_selected _ _ Hsel)
        |rewrite (update_confirmed_selected _ _ Hsel)];
        eexists (started_worker _ _ _ _); split; reflexivity. }
    destruct (IH {| view := refreshed (view w) (api w); api := api w;
                    dialogs := dialogs w; workers := workers w ++ [k];
                    emitted := emitted w |}) as [Hsame|(ks & _ & Hks & Hrun)].
    + exists [k]. split_and!; [done | by constructor |].
      destruct (run_slots rest _) as [[] w']; simpl in *; by subst.
    + exists (k :: ks). split_and!; [done | by constructor |].
      destruct (run_slots rest _) as [[] w']; simpl in *; subst;
        by rewrite <- app_assoc.
  - left. by rewrite (confirmed_unselected _ _ _ Hsel).
Qed.

End Handlers.

(** ** What one event and a run of events can change *)

Section Frames.

Variable format_atlas_name : string -> string.

Implicit Types (w : World) (e : Event)
  (events : list Event).

Local Abbreviation step' := (step format_atlas_name).
Local Abbreviation run' := (run format_atlas_name).

Lemma same_task_refl k : same_task k k.
Proof. by unfold same_task. Qed.

Lemma same_task_trans k1 k2 k3 :
  same_task k1 k2 → same_task k2 k3 → same_task k1 k3.
Proof. unfold same_task. intros (?&?&?&?) (?&?&?&?). split_and!; congruence. Qed.

Lemma tooltip_request_world w atlas_name :
  (step' (ToolTipRequested atlas_name) w).2 = w.
Proof.
  simpl. unfold_M. by destruct (get_tooltip_text _ _ _).
Qed.

Lemma worker_return_world w j (result : PyValue) :
  (worker_return j result w).2 = w ∨
  ∃ k es, workers w !! j = Some k ∧ is_running k ∧
    (worker_return j result w).2 =
      {| view := view w; api := api w; dialogs := dialogs w;
         workers := <[ j := finish k ]> (workers w);
         emitted := emitted w ++ es |}.
Proof.
  destruct (workers w !! j) as [k|] eqn:Hk.
  - destruct (worker_status k) eqn:Hstatus.
    + left. rewrite worker_return_idle; [done|].
      intros k' ?; simplify_eq. unfold is_running. congruence.
    + right. destruct (worker_return_running w j k result Hk Hstatus) as [es Hes].
      by exists k, es.
    + left. rewrite worker_return_idle; [done|].
      intros k' ?; simplify_eq. unfold is_running. congruence.
  - left. rewrite worker_return_idle; [done|]. intros k' ?; simplify_eq.
Qed.

(** Dialogs are only ever added at the end of the list. *)
Lemma step_dialogs_stable e w i d :
  dialogs w !! i = Some d → dialogs (step' e w).2 !! i = Some d.
Proof.
  intros Hd. destruct e as [idx| |i'|j c t|j r|name|a];
    [done| | | | | |done]; try rewrite tooltip_request_world; simpl.
  - destruct (double_click_effect w) as [->|[d' ->]]; [done|].
    simpl. by apply lookup_app_l_Some.
  - unfold ok_button_click. destruct (dialogs w !! i') as [d'|]; [|done].
    destruct (run_slots_effect (ok_button_clicked d') w)
      as [->|(ks & _ & _ & ->)]; done.
  - by destruct (worker_progress_effect w j c t) as [es ->].
  - destruct (worker_return_world w j r) as [->|(k & es & _ & _ & ->)]; done.
  - done.
Qed.

(** A started worker keeps its place and its task. *)
Lemma step_workers_stable e w j k :
  workers w !! j = Some k →
  ∃ k', workers (step' e w).2 !! j = Some k' ∧ same_task k k'.
Proof.
  intros Hk.
  destruct e as [idx| |i'|j' c t|j' r|name|a];
    try rewrite tooltip_request_world; simpl;
    try (exists k; split; [done | apply same_task_refl]).
  - destruct (double_click_effect w) as [->|[d' ->]];
      exists k; split; done || apply same_task_refl.
  - unfold ok_button_click. destruct (dialogs w !! i') as [d'|];
      [|exists k; split; [done | apply same_task_refl]].
    destruct (run_slots_effect (ok_button_clicked d') w)
      as [->|(ks & _ & _ & ->)];
      exists k; (split; [|apply same_task_refl]); [done|].
    simpl. by apply lookup_app_l_Some.
  - destruct (worker_progress_effect w j' c t) as [es ->].
    exists k; split; [done | apply same_task_refl].
  - destruct (worker_return_world w j' r) as [->|(k0 & es & Hk0 & _ & ->)];
      [exists k; split; [done | apply same_task_refl]|].
    simpl. destruct (decide (j' = j)) as [->|Hne].
    + simplify_eq. exists (finish k). split; [|by unfold same_task].
      apply list_lookup_insert_eq. by eapply lookup_lt_Some.
    + exists k. split; [|apply same_task_refl].
      by rewrite list_lookup_insert_ne.
Qed.

Lemma run_dialogs_stable events w i d :
  dialogs w !! i = Some d → dialogs (run' events w) !! i = Some d.
Proof.
  revert w. induction events as [|e rest IH]; intros w Hd; [done|].
  simpl. apply IH. by apply step_dialogs_stable.
Qed.

Lemma run_workers_stable events w j k :
  workers w !! j = Some k →
  ∃ k', workers (run' events w) !! j = Some k' ∧ same_task k k'.
Proof.
  revert w k. induction events as [|e rest IH]; intros w k Hk.
  - exists k. split; [done | apply same_task_refl].
  - simpl.
    destruct (step_workers_stable e w j k Hk) as (k1 & Hk1 & Hsame1).
    destruct (IH _ _ Hk1) as (k2 & Hk2 & Hsame2).
    exists k2. split; [done | by eapply same_task_trans].
Qed.

End Frames.

(** ** The download and update flows *)

Section Flows.

Variable format_atlas_name : string -> string.

Local Open Scope list_scope.

Implicit Types (w : World) (e : Event)
  (events : list Event).

Local Abbreviation step' := (step format_atlas_name).
Local Abbreviation run' := (run format_atlas_name).

(** Pressing ok on a dialog opened by a double-click runs its one slot. *)
Lemma ok_click_opened_dialog w i atlas_name action slot w' :
  dialogs w !! i = Some (opened_dialog atlas_name action slot) →
  run_slot slot w = (Ok tt, w') →
  step' (OkClicked i) w = (Ok tt, w').
Proof.
  intros Hd Hslot. simpl. unfold ok_button_click. rewrite Hd. simpl.
  unfold_M. by rewrite Hslot.
Qed.

(** When a running worker returns a value that the signal accepts, each
    connected signal is emitted once with it, and the worker is finished. *)
Lemma returned_after_run w j k events (result : PyValue) payload :
  workers w !! j = Some k →
  let w1 := run' events w in
  (∀ k', workers w1 !! j = Some k' → is_running k') →
  str_argument result = Ok payload →
  ∃ k',
    workers w1 !! j = Some k' ∧
    step' (WorkerReturned j result) w1 =
      (Ok tt,
       {| view := view w1; api := api w1; dialogs := dialogs w1;
          workers := <[ j := finish k' ]> (workers w1);
          emitted := emitted w1 ++
            map (fun signal => emit signal payload) (worker_returned k) |}).
Proof.
  intros Hk w1 Hrun Hpayload.
  destruct (run_workers_stable format_atlas_name events w j k Hk)
    as (k' & Hk' & _ & _ & _ & Hreturned).
  exists k'. split; [done|]. subst w1.
  change (step' (WorkerReturned j result) ?x) with (worker_return j result x).
  rewrite (worker_return_accepted _ _ _ _ _ Hk' (Hrun _ Hk') Hpayload).
  by rewrite Hreturned.
Qed.

(** When it returns a value that the signal refuses, the worker is
    finished all the same, the exception leaves the callback, and nothing
    is emitted. *)
Lemma refused_after_run w j k signal rest events (result : PyValue) exc :
  workers w !! j = Some k →
  worker_returned k = signal :: rest →
  let w1 := run' events w in
  (∀ k', workers w1 !! j = Some k' → is_running k') →
  str_argument result = Raise exc →
  ∃ k',
    workers w1 !! j = Some k' ∧
    step' (WorkerReturned j result) w1 =
      (Raise exc,
       {| view := view w1; api := api w1; dialogs := dialogs w1;
          workers := <[ j := finish k' ]> (workers w1);
          emitted := emitted w1 |}).
Proof.
  intros Hk Hsignals w1 Hrun Hrefused.
  destruct (run_workers_stable format_atlas_name events w j k Hk)
    as (k' & Hk' & _ & _ & _ & Hreturned).
  exists k'. split; [done|]. subst w1.
  change (step' (WorkerReturned j result) ?x) with (worker_return j result x).
  rewrite Hsignals in Hreturned.
  by rewrite (worker_return_refused _ _ _ _ _ _ _ Hk' (Hrun _ Hk') Hreturned
                Hrefused).
Qed.


(** What the return of the running worker [j], started as [k], does. *)
Lemma return_of_started_worker w j k signal events (result : PyValue) :
  workers w !! j = Some k →
  worker_returned k = [signal] →
  let w1 := run' events w in
  (∀ k', workers w1 !! j = Some k' → is_running k') →
  let w2 := (step' (WorkerReturned j result) w1).2 in
  (∃ k', workers w2 !! j = Some k' ∧ worker_status k' = Finished) ∧
  view w2 = view w1 ∧
  (∀ payload,
     str_argument result = Ok payload →
     (step' (WorkerReturned j result) w1).1 = Ok tt ∧
     emitted w2 = emitted w1 ++ [emit signal payload]) ∧
  (∀ exc,
     str_argument result = Raise exc →
     (step' (WorkerReturned j result) w1).1 = Raise exc ∧
     emitted w2 = emitted w1).
Proof.
  intros Hk Hsignals w1 Hrun w2. subst w2 w1.
  destruct (str_argument result) as [payload|exc] eqn:Hargument.
  - destruct (returned_after_run w j k events result payload Hk Hrun Hargument)
      as (k' & Hk' & ->).
    rewrite Hsignals. cbn [fst snd workers emitted view map].
    split_and!; [|done| |done].
    + exists (finish k'). split; [|done].
      apply list_lookup_insert_eq. by eapply lookup_lt_Some.
    + intros ? [= <-]. done.
  - destruct (refused_after_run w j k signal [] events result exc Hk Hsignals
                Hrun Hargument) as (k' & Hk' & ->).
    cbn [fst snd workers emitted view].
    split_and!; [|done|done|].
    + exists (finish k'). split; [|done].
      apply list_lookup_insert_eq. by eapply lookup_lt_Some.
    + intros ? [= <-]. done.
Qed.

Lemma lookup_app_length {A : Type} (l : list A) (x : A) :
  (l ++ [x]) !! length l = Some x.
Proof. by rewrite lookup_app_r, Nat.sub_diag. Qed.

(** From the press on ok of a dialog opened by a double-click to the
    return of the worker it starts. *)
Lemma confirm_and_return w i dialog_atlas action slot :
  dialogs w !! i = Some (opened_dialog dialog_atlas action slot) →
  let j := length (workers w) in
  let w1 := (step' (OkClicked i) w).2 in
  (∀ exc,
     selected_atlas_name (view w) = Raise exc →
     step' (OkClicked i) w = (Raise exc, w)) ∧
  ∀ selected,
    selected_atlas_name (view w) = Ok selected →
    (step' (OkClicked i) w).1 = Ok tt ∧
    workers w1 = workers w ++ [slot_worker slot selected] ∧
    dialogs w1 = dialogs w ∧ emitted w1 = emitted w ∧
    ∀ events result,
      let w2 := run' events w1 in
      (∀ k, workers w2 !! j = Some k → is_running k) →
      let w3 := (step' (WorkerReturned j result) w2).2 in
      (∃ k, workers w3 !! j = Some k ∧ worker_status k = Finished) ∧
      (∀ payload,
         str_argument result = Ok payload →
         (step' (WorkerReturned j result) w2).1 = Ok tt ∧
         emitted w3 = emitted w2 ++
           [emit (operation_signal (worker_apply (slot_worker slot selected)))
              payload]) ∧
      (∀ exc,
         str_argument result = Raise exc →
         (step' (WorkerReturned j result) w2).1 = Raise exc ∧
         emitted w3 = emitted w2).
Proof.
  intros Hd j w1. split.
  - intros exc Hsel. simpl. unfold ok_button_click. rewrite Hd. simpl.
    unfold mbind, M_bind. by rewrite (confirmed_unselected _ _ _ Hsel).
  - intros selected Hsel. subst w1.
    assert (run_slot slot w =
              (Ok tt,
               {| view := refreshed (view w) (api w); api := api w;
                  dialogs := dialogs w;
                  workers := workers w ++ [slot_worker slot selected];
                  emitted := emitted w |})) as Hslot.
    { destruct slot; simpl.
      - by rewrite (download_confirmed_selected _ _ Hsel).
      - by rewrite (update_confirmed_selected _ _ Hsel). }
    rewrite (ok_click_opened_dialog _ _ _ _ _ _ Hd Hslot).
    cbn [fst snd dialogs workers emitted]. split_and!; [done..|].
    intros events result.
    match goal with |- context [run' events ?x] => set (w1 := x) end.
    intros Hrun.
    destruct (return_of_started_worker w1 j (slot_worker slot selected)
                (operation_signal (worker_apply (slot_worker slot selected)))
                events result (lookup_app_length (workers w) _)
                ltac:(by destruct slot) Hrun)
      as (Hfinished & _ & Haccepted & Hrefused).
    by split_and!.
Qed.

(** C1, as the code has it: a double-click on the row of an atlas that is
    not in the cached downloaded-set opens a Download dialog and nothing
    else, and leaves that row selected.  When ok is pressed on that dialog
    later, the handler reads the selection anew: with no valid selection
    it fails the assertion and starts nothing; otherwise it starts
    exactly one worker applying [install_atlas] to the atlas selected at
    that moment.  When that worker returns, it is finished; a result that
    the [str] signal accepts is emitted exactly once as
    [download_atlas_confirmed], and one that it refuses emits nothing. *)
Theorem download_flow w atlas_name downloaded :
  selected_atlas_name (view w) = Ok atlas_name →
  cached_downloaded_atlases (view w) = Some downloaded →
  atlas_name ∉ downloaded →
  let i := length (dialogs w) in
  let w1 := (step' DoubleClicked w).2 in
  (step' DoubleClicked w).1 = Ok tt ∧
  dialogs w1 = dialogs w ++
    [opened_dialog atlas_name "Download" slot_on_download_atlas_confirmed] ∧
  workers w1 = workers w ∧ emitted w1 = emitted w ∧
  selected_atlas_name (view w1) = Ok atlas_name ∧
  ∀ events,
    let w2 := run' events w1 in
    let j := length (workers w2) in
    let w3 := (step' (OkClicked i) w2).2 in
    (∀ exc,
       selected_atlas_name (view w2) = Raise exc →
       step' (OkClicked i) w2 = (Raise exc, w2)) ∧
    ∀ selected,
      selected_atlas_name (view w2) = Ok selected →
      (step' (OkClicked i) w2).1 = Ok tt ∧
      workers w3 = workers w2 ++
        [started_worker install_atlas selected download_atlas_confirmed
           "Downloading"] ∧
      dialogs w3 = dialogs w2 ∧ emitted w3 = emitted w2 ∧
      ∀ events' result,
        let w4 := run' events' w3 in
        (∀ k, workers w4 !! j = Some k → is_running k) →
        let w5 := (step' (WorkerReturned j result) w4).2 in
        (∃ k, workers w5 !! j = Some k ∧ worker_status k = Finished) ∧
        (∀ payload,
           str_argument result = Ok payload →
           (step' (WorkerReturned j result) w4).1 = Ok tt ∧
           emitted w5 = emitted w4 ++ [emit download_atlas_confirmed payload]) ∧
        (∀ exc,
           str_argument result = Raise exc →
           (step' (WorkerReturned j result) w4).1 = Raise exc ∧
           emitted w5 = emitted w4).
Proof.
  intros Hsel Hcache Hout i w1. subst w1.
  change (step' DoubleClicked w) with (_on_row_double_clicked w).
  rewrite (double_click_not_downloaded _ _ _ Hsel Hcache Hout).
  cbn [fst snd dialogs workers emitted view]. split_and!; [done..|].
  intros events. set (w2 := run' events _).
  apply (confirm_and_return w2 i atlas_name "Download"
           slot_on_download_atlas_confirmed).
  apply run_dialogs_stable. simpl. apply lookup_app_length.
Qed.

(** C2, as the code has it: a double-click on the row of an atlas that is
    in the cached downloaded-set and whose cached entry says not
    [updated] opens an Update dialog and nothing else, and leaves that
    row selected.  When ok is pressed on that dialog later, the handler
    reads the selection anew: with no valid selection it fails the
    assertion and starts nothing; otherwise it starts exactly one worker
    applying [update_atlas] to the atlas selected at that moment.  When
    that worker returns, it is finished; a result that the [str] signal
    accepts is emitted exactly once as [update_atlas_confirmed], and one
    that it refuses emits nothing. *)
Theorem update_flow w atlas_name downloaded versions entry :
  selected_atlas_name (view w) = Ok atlas_name →
  cached_downloaded_atlases (view w) = Some downloaded →
  atlas_name ∈ downloaded →
  cached_atlas_versions (view w) = Some versions →
  versions !! atlas_name = Some entry →
  updated entry = false →
  let i := length (dialogs w) in
  let w1 := (step' DoubleClicked w).2 in
  (step' DoubleClicked w).1 = Ok tt ∧
  dialogs w1 = dialogs w ++
    [opened_dialog atlas_name "Update" slot_on_update_atlas_confirmed] ∧
  workers w1 = workers w ∧ emitted w1 = emitted w ∧
  selected_atlas_name (view w1) = Ok atlas_name ∧
  ∀ events,
    let w2 := run' events w1 in
    let j := length (workers w2) in
    let w3 := (step' (OkClicked i) w2).2 in
    (∀ exc,
       selected_atlas_name (view w2) = Raise exc →
       step' (OkClicked i) w2 = (Raise exc, w2)) ∧
    ∀ selected,
      selected_atlas_name (view w2) = Ok selected →
      (step' (OkClicked i) w2).1 = Ok tt ∧
      workers w3 = workers w2 ++
        [started_worker update_atlas selected update_atlas_confirmed
           "Updating"] ∧
      dialogs w3 = dialogs w2 ∧ emitted w3 = emitted w2 ∧
      ∀ events' result,
        let w4 := run' events' w3 in
        (∀ k, workers w4 !! j = Some k → is_running k) →
        let w5 := (step' (WorkerReturned j result) w4).2 in
        (∃ k, workers w5 !! j = Some k ∧ worker_status k = Finished) ∧
        (∀ payload,
           str_argument result = Ok payload →
           (step' (WorkerReturned j result) w4).1 = Ok tt ∧
           emitted w5 = emitted w4 ++ [emit update_atlas_confirmed payload]) ∧
        (∀ exc,
           str_argument result = Raise exc →
           (step' (WorkerReturned j result) w4).1 = Raise exc ∧
           emitted w5 = emitted w4).
Proof.
  intros Hsel Hcache Hin Hversions Hentry Hstale i w1. subst w1.
  change (step' DoubleClicked w) with (_on_row_double_clicked w).
  rewrite (double_click_stale _ _ _ _ _ Hsel Hcache Hin Hversions Hentry Hstale).
  cbn [fst snd dialogs workers emitted view]. split_and!; [done..|].
  intros events. set (w2 := run' events _).
  apply (confirm_and_return w2 i atlas_name "Update"
           slot_on_update_atlas_confirmed).
  apply run_dialogs_stable. simpl. apply lookup_app_length.
Qed.

(** C8: a double-click on the row of an atlas that is in the cached
    downloaded-set and whose cached entry says [updated] returns
    normally and leaves the world as it was: no dialog, no worker. *)
Theorem double_click_up_to_date_noop w atlas_name downloaded versions entry :
  selected_atlas_name (view w) = Ok atlas_name →
  cached_downloaded_atlases (view w) = Some downloaded →
  atlas_name ∈ downloaded →
  cached_atlas_versions (view w) = Some versions →
  versions !! atlas_name = Some entry →
  updated entry = true →
  step' DoubleClicked w = (Ok tt, w) ∧
  dialogs (step' DoubleClicked w).2 = dialogs w ∧
  workers (step' DoubleClicked w).2 = workers w.
Proof.
  intros Hsel Hcache Hin Hversions Hentry Hfresh.
  change (step' DoubleClicked w) with (_on_row_double_clicked w).
  by rewrite (double_click_up_to_date _ _ _ _ _ Hsel Hcache Hin Hversions
                Hentry Hfresh).
Qed.



Lemma worker_return_cache w j (result : PyValue) :
  view (worker_return j result w).2 = view w.
Proof.
  by destruct (worker_return_world w j result) as [->|(k & es & _ & _ & ->)].
Qed.

(** C6, as the code has it: the confirmation handler itself refreshes
    the cache from the API, right after it has started the worker and
    while that worker is still running.  When that worker returns,
    however many events later, a result that the [str] signal accepts is
    emitted exactly once on the signal of the handler, and the view, and
    so its cache, stays as it is; the return of any worker leaves the
    cache as it is. *)
Theorem refresh_at_dispatch w atlas_name slot :
  selected_atlas_name (view w) = Ok atlas_name →
  let j := length (workers w) in
  let w1 := (run_slot slot w).2 in
  let signal :=
    match slot with
    | slot_on_download_atlas_confirmed => download_atlas_confirmed
    | slot_on_update_atlas_confirmed => update_atlas_confirmed
    end in
  (∃ k, workers w1 = workers w ++ [k] ∧ is_running k) ∧
  cache (view w1) =
    (Some (get_downloaded_atlases (api w)),
     Some (get_atlases_lastversions (api w))) ∧
  emitted w1 = emitted w ∧
  (∀ events result payload,
     let w2 := run' events w1 in
     (∀ k, workers w2 !! j = Some k → is_running k) →
     str_argument result = Ok payload →
     let w3 := (step' (WorkerReturned j result) w2).2 in
     emitted w3 = emitted w2 ++ [emit signal payload] ∧
     (∃ k, workers w3 !! j = Some k ∧ worker_status k = Finished) ∧
     cache (view w3) = cache (view w2)) ∧
  ∀ w' j' result,
    view (step' (WorkerReturned j' result) w').2 = view w' ∧
    cache (view (step' (WorkerReturned j' result) w').2) = cache (view w').
Proof.
  intros Hsel j w1 signal.
  assert (run_slot slot w =
            (Ok tt,
             {| view := refreshed (view w) (api w); api := api w;
                dialogs := dialogs w;
                workers := workers w ++ [slot_worker slot atlas_name];
                emitted := emitted w |})) as Hslot.
  { destruct slot; simpl.
    - by rewrite (download_confirmed_selected _ _ Hsel).
    - by rewrite (update_confirmed_selected _ _ Hsel). }
  subst w1. rewrite Hslot. cbn [snd view workers emitted].
  split_and!; [eexists; split; [reflexivity|by destruct slot] |done|done| |].
  - intros events result payload.
    match goal with |- context [run' events ?x] => set (w1 := x) end.
    intros Hrun Hpayload.
    destruct (return_of_started_worker w1 j (slot_worker slot atlas_name)
                signal events result (lookup_app_length (workers w) _)
                ltac:(by destruct slot) Hrun)
      as (Hfinished & Hview & Haccepted & _).
    destruct (Haccepted payload Hpayload) as [_ Hemitted].
    split_and!; [done..|]. by rewrite Hview.
  - intros w' j' result.
    change (step' (WorkerReturned j' result) w') with (worker_return j' result w').
    by rewrite worker_return_cache.
Qed.

(** C7: an event other than a press on ok leaves both cache attributes
    as they are; a press on ok either changes nothing at all, or
    dispatches workers that are running afterwards and sets both
    attributes to what the API answers at that moment, whatever they
    held before. *)
Theorem cache_written_only_by_refresh e w :
  let w' := (step' e w).2 in
  (is_ok_click e = false ∧ cache (view w') = cache (view w)) ∨
  (is_ok_click e = true ∧ w' = w) ∨
  (is_ok_click e = true ∧
   ∃ ks, ks ≠ [] ∧ Forall is_running ks ∧ workers w' = workers w ++ ks ∧
     cache (view w') =
       (Some (get_downloaded_atlases (api w)),
        Some (get_atlases_lastversions (api w)))).
Proof.
  intros w'. subst w'.
  destruct e as [idx| |i|j c t|j r|name|a];
    try rewrite tooltip_request_world; try (by left).
  - left. split; [done|].
    change (step' DoubleClicked w) with (_on_row_double_clicked w).
    by destruct (double_click_effect w) as [->|[d ->]].
  - right. simpl. unfold ok_button_click.
    destruct (dialogs w !! i) as [d|]; [|by left].
    destruct (run_slots_effect (ok_button_clicked d) w)
      as [->|(ks & Hne & Hks & ->)]; [by left|].
    right. split; [done|]. by exists ks.
  - left. split; [done|]. simpl.
    by destruct (worker_progress_effect w j c t) as [es ->].
  - left. split; [done|]. simpl. by rewrite worker_return_cache.
Qed.

Lemma double_click_uninitialised w :
  cached_downloaded_atlases (view w) = None →
  _on_row_double_clicked w =
    (Raise (if isValid (currentIndex (view w))
            then AttributeError "cached_downloaded_atlases"
            else AssertionError), w).
Proof.
  intros Hcache. unfold _on_row_double_clicked, selected_atlas_name.
  unfold_M. unfold selected_atlas_name.
  destruct (isValid (currentIndex (view w))); [|done].
  by rewrite Hcache.
Qed.

(** Through the events of the toolkit, a view that has not been
    initialised stays so. *)
Lemma step_uninitialised e w :
  uninitialised w → uninitialised (step' e w).2.
Proof.
  intros [Hcache Hdialogs].
  destruct e as [idx| |i|j c t|j r|name|a];
    try rewrite tooltip_request_world; try done.
  - change (step' DoubleClicked w) with (_on_row_double_clicked w).
    rewrite double_click_uninitialised; [done|].
    unfold cache in Hcache. congruence.
  - simpl. unfold ok_button_click. by rewrite Hdialogs.
  - simpl. by destruct (worker_progress_effect w j c t) as [es ->].
  - simpl. by destruct (worker_return_world w j r) as [->|(k & es & _ & _ & ->)].
Qed.

Lemma run_uninitialised events w :
  uninitialised w → uninitialised (run' events w).
Proof.
  revert w. induction events as [|e rest IH]; intros w Hw; [done|].
  simpl. by apply IH, step_uninitialised.
Qed.

Lemma run_current_index events idx w :
  currentIndex (view (run' (events ++ [CurrentIndexChanged idx]) w)) = idx.
Proof.
  revert w. induction events as [|e rest IH]; intros w; [reflexivity|].
  simpl. apply IH.
Qed.

(** C10: [__init__] assigns neither cache attribute.  Whatever events
    reach a freshly constructed view, the attributes stay unassigned and
    no dialog is open; a double-click on any row then raises
    [AttributeError] for [cached_downloaded_atlases] (and
    [AssertionError] when the index is not valid) and opens no dialog. *)
Theorem fresh_view_double_click_fails m a events idx :
  let w := run' (events ++ [CurrentIndexChanged idx]) (fresh m a) in
  cached_downloaded_atlases (__init__ m) = None ∧
  cached_atlas_versions (__init__ m) = None ∧
  cache (view w) = (None, None) ∧
  dialogs w = [] ∧
  step' DoubleClicked w =
    (Raise (if isValid idx
            then AttributeError "cached_downloaded_atlases"
            else AssertionError), w).
Proof.
  intros w.
  assert (uninitialised w) as [Hcache Hdialogs].
  { apply run_uninitialised. by split. }
  assert (currentIndex (view w) = idx) as Hidx
    by apply run_current_index.
  split_and!; [done..|].
  change (step' DoubleClicked w) with (_on_row_double_clicked w).
  rewrite double_click_uninitialised, Hidx; [done|].
  unfold cache in Hcache. congruence.
Qed.

End Flows.

(** ** The flows on concrete worlds *)

Local Open Scope list_scope.

(** Closes [∀ k, workers w !! j = Some k → is_running k] on a concrete world. *)
Ltac concrete_running :=
  let k := fresh "k" in
  let Hk := fresh "Hk" in
  intros k Hk; vm_compute in Hk; injection Hk as <-; reflexivity.

(** C1 on [demo_model]: row 2 is not downloaded. *)
Lemma download_flow_witness :
  emitted
    (run id
       [DoubleClicked; OkClicked 0; ProgressReported 0 1 4;
        WorkerReturned 0 "done"]
       (demo_world 2)) =
    [emit_progress_updated 1 4 "mpin_zfish_1um" "Downloading";
     emit download_atlas_confirmed "done"].
Proof.
  destruct (download_flow id (demo_world 2) "mpin_zfish_1um"
              (get_downloaded_atlases demo_api) eq_refl eq_refl
              ltac:(compute_done)) as (_ & _ & _ & _ & _ & Hconfirm).
  destruct (Hconfirm []) as [_ Hselected].
  destruct (Hselected "mpin_zfish_1um" eq_refl) as (_ & _ & _ & _ & Hreturn).
  destruct (Hreturn [ProgressReported 0 1 4] "done" ltac:(concrete_running))
    as (_ & Haccepted & _).
  exact (proj2 (Haccepted "done" eq_refl)).
Defined.

(** C1 as stated fails on [demo_model].  After a double-click on row 2,
    whose atlas is not downloaded, the selection moves to row 0 and ok is
    pressed on the Download dialog: the one worker that starts installs
    the atlas of row 0.  And with the selection left alone, a worker that
    returns [None] has the empty string emitted, and one that returns an
    [int] has nothing emitted. *)
Lemma download_flow_as_stated_fails :
  workers
    (run id [DoubleClicked; CurrentIndexChanged (at_row 0); OkClicked 0]
       (demo_world 2)) =
    [started_worker install_atlas "allen_mouse_100um" download_atlas_confirmed
       "Downloading"] ∧
  emitted
    (run id [DoubleClicked; OkClicked 0; WorkerReturned 0 PyNone]
       (demo_world 2)) =
    [emit download_atlas_confirmed ""] ∧
  emitted
    (run id [DoubleClicked; OkClicked 0; WorkerReturned 0 (PyInt 7)]
       (demo_world 2)) = [].
Proof. split_and!; reflexivity. Qed.

(** C2 on [demo_model]: row 1 is downloaded and stale. *)
Lemma update_flow_witness :
  emitted
    (run id
       [DoubleClicked; OkClicked 0; ProgressReported 0 1 4;
        WorkerReturned 0 "done"]
       (demo_world 1)) =
    [emit_progress_updated 1 4 "example_mouse_100um" "Updating";
     emit update_atlas_confirmed "done"].
Proof.
  destruct (update_flow id (demo_world 1) "example_mouse_100um"
              (get_downloaded_atlases demo_api)
              (get_atlases_lastversions demo_api) {| updated := false |}
              eq_refl eq_refl ltac:(compute_done) eq_refl eq_refl eq_refl)
    as (_ & _ & _ & _ & _ & Hconfirm).
  destruct (Hconfirm []) as [_ Hselected].
  destruct (Hselected "example_mouse_100um" eq_refl)
    as (_ & _ & _ & _ & Hreturn).
  destruct (Hreturn [ProgressReported 0 1 4] "done" ltac:(concrete_running))
    as (_ & Haccepted & _).
  exact (proj2 (Haccepted "done" eq_refl)).
Defined.

(** C2 as stated fails on [demo_model].  After a double-click on row 1,
    whose atlas is downloaded and stale, the selection moves to row 2 and
    ok is pressed on the Update dialog: the one worker that starts
    updates the atlas of row 2.  And with the selection left alone, a
    worker that returns [None] has the empty string emitted, and one that
    returns an [int] has nothing emitted. *)
Lemma update_flow_as_stated_fails :
  workers
    (run id [DoubleClicked; CurrentIndexChanged (at_row 2); OkClicked 0]
       (demo_world 1)) =
    [started_worker update_atlas "mpin_zfish_1um" update_atlas_confirmed
       "Updating"] ∧
  emitted
    (run id [DoubleClicked; OkClicked 0; WorkerReturned 0 PyNone]
       (demo_world 1)) =
    [emit update_atlas_confirmed ""] ∧
  emitted
    (run id [DoubleClicked; OkClicked 0; WorkerReturned 0 (PyInt 7)]
       (demo_world 1)) = [].
Proof. split_and!; reflexivity. Qed.

(** C8 on [demo_model]: row 0 is downloaded and up to date. *)
Lemma double_click_up_to_date_noop_witness :
  step id DoubleClicked (demo_world 0) = (Ok tt, demo_world 0).
Proof.
  apply (double_click_up_to_date_noop id (demo_world 0) "allen_mouse_100um"
           (get_downloaded_atlases demo_api)
           (get_atlases_lastversions demo_api) {| updated := true |}
           eq_refl eq_refl ltac:(compute_done) eq_refl eq_refl eq_refl).
Defined.



(** C6 as stated fails on [stale_world].  Pressing ok changes the cache at
    once, while worker 0 is still running; and when the worker returns,
    after the API has come to list the new atlas, the notification is
    emitted but the cache is not refreshed: it still lacks the atlas. *)
Lemma refresh_not_deferred_to_completion :
  let w1 := (step id (OkClicked 0) stale_world).2 in
  let w2 :=
    run id [ApiChanged demo_api_installed; WorkerReturned 0 "done"] w1 in
  (∃ k, workers w1 !! 0 = Some k ∧ is_running k) ∧
  cache (view w1) ≠ cache (view stale_world) ∧
  emitted w2 = [emit download_atlas_confirmed "done"] ∧
  (∃ k, workers w2 !! 0 = Some k ∧ worker_status k = Finished) ∧
  cache (view w2) = cache (view w1) ∧
  cache (view w2) ≠
    (Some (get_downloaded_atlases (api w2)),
     Some (get_atlases_lastversions (api w2))).
Proof.
  split_and!.
  - eexists. split; reflexivity.
  - compute_done.
  - reflexivity.
  - eexists. split; reflexivity.
  - reflexivity.
  - compute_done.
Qed.

(** C6 as amended, on [stale_world]. *)
Lemma refresh_at_dispatch_witness :
  cache (view (_on_download_atlas_confirmed stale_world).2) =
    (Some (get_downloaded_atlases demo_api),
     Some (get_atlases_lastversions demo_api)) ∧
  emitted
    (run id [ApiChanged demo_api_installed; WorkerReturned 0 "done"]
       (_on_download_atlas_confirmed stale_world).2) =
    [emit download_atlas_confirmed "done"].
Proof.
  destruct (refresh_at_dispatch id stale_world "mpin_zfish_1um"
              slot_on_download_atlas_confirmed eq_refl)
    as (_ & Hcache & _ & Hreturn & _).
  split; [exact Hcache|].
  exact (proj1 (Hreturn [ApiChanged demo_api_installed] "done" "done"
                  ltac:(concrete_running) eq_refl)).
Defined.

(** ** Further runs on concrete worlds *)

(** The first double-click on a freshly constructed view. *)
Example fresh_first_double_click :
  let w : World :=
    run id [CurrentIndexChanged (at_row 0)] (fresh demo_model demo_api) in
  step id DoubleClicked w =
    (Raise (AttributeError "cached_downloaded_atlases"), w).
Proof. reflexivity. Qed.

(** The confirmation handlers read the selection anew: if the current
    index has moved to row 0 while the Download dialog of row 2 was open,
    pressing ok installs the atlas of row 0. *)
Example confirm_follows_selection :
  workers
    (run id [DoubleClicked; CurrentIndexChanged (at_row 0); OkClicked 0]
       (demo_world 2)) =
    [started_worker install_atlas "allen_mouse_100um" download_atlas_confirmed
       "Downloading"].
Proof. reflexivity. Qed.

(** Pressing ok with no valid current index raises and starts nothing. *)
Example confirm_without_selection :
  step id (OkClicked 0)
    (setCurrentIndex invalid_index stale_world).2 =
    (Raise AssertionError, (setCurrentIndex invalid_index stale_world).2).
Proof. reflexivity. Qed.

(** A second press on ok starts a second worker: the view keeps no record
    of tasks in flight. *)
Example confirm_twice :
  map worker_arg
    (workers (run id [OkClicked 0; OkClicked 0] stale_world)) =
    ["mpin_zfish_1um"; "mpin_zfish_1um"].
Proof. reflexivity. Qed.

(** * Further properties of the view *)

Section TooltipAndCache.

Variable format_atlas_name : string -> string.

Implicit Types (w : World) (e : Event)
  (events : list Event).

Local Abbreviation tooltip := (get_tooltip_text format_atlas_name).
Local Abbreviation step' := (step format_atlas_name).
Local Abbreviation run' := (run format_atlas_name).

(** X1: a string returned by [get_tooltip_text] is the formatted name
    followed by one of the three suffixes, and the suffix tells the state
    of the atlas: "is up-to-date" or "(double-click to update)" only for a
    downloaded atlas, according to its entry, and "(double-click to
    download)" only for an atlas that is not downloaded but listed. *)
Theorem get_tooltip_text_inversion (a : AtlasApi) (atlas_name text : string) :
  tooltip a atlas_name = Ok text →
  (atlas_name ∈ get_downloaded_atlases a ∧
   ∃ entry, get_atlases_lastversions a !! atlas_name = Some entry ∧
     text = format_atlas_name atlas_name +:+
            (if updated entry then " is up-to-date"
             else " (double-click to update)")) ∨
  ((atlas_name ∉ get_downloaded_atlases a) ∧
   atlas_name ∈ dom (get_all_atlases_lastversions a) ∧
   text = format_atlas_name atlas_name +:+ " (double-click to download)").
Proof.
  rewrite get_tooltip_text_spec. intros Htext.
  destruct (decide (atlas_name ∈ get_downloaded_atlases a)) as [Hin|Hout].
  - left. split; [done|].
    destruct (get_atlases_lastversions a !! atlas_name) as [entry|]; [|done].
    exists entry. split; [done|]. congruence.
  - right.
    destruct (decide (atlas_name ∈ dom (get_all_atlases_lastversions a)));
      [|done].
    split_and!; [done..|]. congruence.
Qed.

(** X2: a double-click on an atlas that the cached downloaded-set
    contains but the cached versions have no entry for raises [KeyError]
    with the name as key, and changes nothing. *)
Theorem double_click_missing_entry w atlas_name downloaded versions :
  selected_atlas_name (view w) = Ok atlas_name →
  cached_downloaded_atlases (view w) = Some downloaded →
  atlas_name ∈ downloaded →
  cached_atlas_versions (view w) = Some versions →
  versions !! atlas_name = None →
  step' DoubleClicked w = (Raise (KeyError atlas_name), w).
Proof.
  intros Hsel Hcache Hin Hversions Hentry.
  change (step' DoubleClicked w) with (_on_row_double_clicked w).
  unfold _on_row_double_clicked. unfold_M.
  rewrite Hsel, Hcache. rewrite decide_True by done.
  by rewrite Hversions, Hentry.
Qed.

(** X3: when the cache holds what the API answers now, the double-click
    on the selected row and the tooltip of its name go together: up to
    date, nothing happens; stale, an Update dialog; no entry, both raise
    [KeyError]; not downloaded but listed, a Download dialog. *)
Theorem synced_double_click_and_tooltip w atlas_name :
  selected_atlas_name (view w) = Ok atlas_name →
  cache (view w) =
    (Some (get_downloaded_atlases (api w)),
     Some (get_atlases_lastversions (api w))) →
  let opens action slot :=
    step' DoubleClicked w =
      (Ok tt,
       {| view := view w; api := api w;
          dialogs := dialogs w ++ [opened_dialog atlas_name action slot];
          workers := workers w; emitted := emitted w |}) in
  (∀ entry,
     atlas_name ∈ get_downloaded_atlases (api w) →
     get_atlases_lastversions (api w) !! atlas_name = Some entry →
     updated entry = true →
     tooltip (api w) atlas_name =
       Ok (format_atlas_name atlas_name +:+ " is up-to-date") ∧
     step' DoubleClicked w = (Ok tt, w)) ∧
  (∀ entry,
     atlas_name ∈ get_downloaded_atlases (api w) →
     get_atlases_lastversions (api w) !! atlas_name = Some entry →
     updated entry = false →
     tooltip (api w) atlas_name =
       Ok (format_atlas_name atlas_name +:+ " (double-click to update)") ∧
     opens "Update" slot_on_update_atlas_confirmed) ∧
  (atlas_name ∈ get_downloaded_atlases (api w) →
   get_atlases_lastversions (api w) !! atlas_name = None →
   tooltip (api w) atlas_name = Raise (KeyError atlas_name) ∧
   step' DoubleClicked w = (Raise (KeyError atlas_name), w)) ∧
  (atlas_name ∉ get_downloaded_atlases (api w) →
   atlas_name ∈ dom (get_all_atlases_lastversions (api w)) →
   tooltip (api w) atlas_name =
     Ok (format_atlas_name atlas_name +:+ " (double-click to download)") ∧
   opens "Download" slot_on_download_atlas_confirmed).
Proof.
  intros Hsel Hsync opens. subst opens.
  injection Hsync as Hdownloaded Hversions.
  change (step' DoubleClicked w) with (_on_row_double_clicked w).
  rewrite get_tooltip_text_spec.
  split_and!.
  - intros entry Hin Hentry Hupdated.
    rewrite decide_True, Hentry, Hupdated by done. split; [done|].
    by eapply double_click_up_to_date.
  - intros entry Hin Hentry Hupdated.
    rewrite decide_True, Hentry, Hupdated by done. split; [done|].
    by eapply double_click_stale.
  - intros Hin Hentry.
    rewrite decide_True, Hentry by done. split; [done|].
    unfold _on_row_double_clicked. unfold_M.
    rewrite Hsel, Hdownloaded. rewrite decide_True by done.
    by rewrite Hversions, Hentry.
  - intros Hout Hlisted.
    rewrite decide_False, decide_True by done. split; [done|].
    by eapply double_click_not_downloaded.
Qed.

(** X4: the tooltip asks the API, the double-click asks the cache.  For an
    atlas that the API lists as downloaded while the cached downloaded-set
    does not hold it, the tooltip describes a downloaded atlas and the
    double-click nevertheless opens a Download dialog. *)
Theorem stale_cache_offers_download w atlas_name downloaded entry :
  selected_atlas_name (view w) = Ok atlas_name →
  cached_downloaded_atlases (view w) = Some downloaded →
  atlas_name ∉ downloaded →
  atlas_name ∈ get_downloaded_atlases (api w) →
  get_atlases_lastversions (api w) !! atlas_name = Some entry →
  tooltip (api w) atlas_name =
    Ok (format_atlas_name atlas_name +:+
        (if updated entry then " is up-to-date"
         else " (double-click to update)")) ∧
  dialogs (step' DoubleClicked w).2 =
    dialogs w ++
      [opened_dialog atlas_name "Download" slot_on_download_atlas_confirmed].
Proof.
  intros Hsel Hcache Hout Hin Hentry.
  rewrite get_tooltip_text_spec, decide_True, Hentry by done.
  split; [done|].
  change (step' DoubleClicked w) with (_on_row_double_clicked w).
  by rewrite (double_click_not_downloaded _ _ _ Hsel Hcache Hout).
Qed.

End TooltipAndCache.

Section Dispatch.

Variable format_atlas_name : string -> string.

Implicit Types (w : World) (e : Event)
  (events : list Event).

Local Abbreviation step' := (step format_atlas_name).
Local Abbreviation run' := (run format_atlas_name).

(** The world after a confirmation handler has started [k]. *)
Local Abbreviation dispatched w k :=
  {| view := refreshed (view w) (api w); api := api w; dialogs := dialogs w;
     workers := workers w ++ [k]; emitted := emitted w |}.

Lemma run_slot_selected w atlas_name slot :
  selected_atlas_name (view w) = Ok atlas_name →
  run_slot slot w = (Ok tt, dispatched w (slot_worker slot atlas_name)).
Proof.
  intros Hsel. destruct slot; simpl.
  - by rewrite (download_confirmed_selected _ _ Hsel).
  - by rewrite (update_confirmed_selected _ _ Hsel).
Qed.

Lemma ok_click_selected w i dialog_atlas action slot atlas_name :
  dialogs w !! i = Some (opened_dialog dialog_atlas action slot) →
  selected_atlas_name (view w) = Ok atlas_name →
  step' (OkClicked i) w =
    (Ok tt, dispatched w (slot_worker slot atlas_name)).
Proof.
  intros Hd Hsel.
  by apply (ok_click_opened_dialog format_atlas_name _ _ _ _ _ _ Hd),
    run_slot_selected.
Qed.

(** X5: the confirmation handlers take the atlas from the selection at
    the moment ok is pressed, not from the dialog.  Pressing ok on a
    dialog that was opened for any atlas starts one worker for the atlas
    that is selected now, with the operation of the dialog's slot, and
    refreshes the cache. *)
Theorem confirm_uses_current_selection w i dialog_atlas action slot atlas_name :
  dialogs w !! i = Some (opened_dialog dialog_atlas action slot) →
  selected_atlas_name (view w) = Ok atlas_name →
  step' (OkClicked i) w =
    (Ok tt, dispatched w (slot_worker slot atlas_name)).
Proof. apply ok_click_selected. Qed.

(** X6: the view keeps no record of tasks in flight.  Pressing ok [n]
    times on the same dialog starts [n] workers for the selected atlas. *)
Theorem confirm_n_times w i dialog_atlas action slot atlas_name n :
  dialogs w !! i = Some (opened_dialog dialog_atlas action slot) →
  selected_atlas_name (view w) = Ok atlas_name →
  workers (run' (replicate n (OkClicked i)) w) =
    workers w ++ replicate n (slot_worker slot atlas_name).
Proof.
  revert w. induction n as [|n IH]; intros w Hd Hsel.
  - simpl. by rewrite app_nil_r.
  - cbn [replicate run].
    rewrite (ok_click_selected _ _ _ _ _ _ Hd Hsel).
    cbn [snd]. rewrite IH by done.
    cbn [workers]. by rewrite <- app_assoc.
Qed.

(** X7: a confirmation whose refresh fails has started its worker all
    the same.  The handlers start the worker before the two calls of the
    API.  If the first call raises, the handler ends in that exception
    with the worker running and the cache untouched; if the second call
    raises, the worker is running and only [cached_downloaded_atlases]
    has been assigned.  When both calls answer, this is the handler. *)
Theorem refresh_failure_after_dispatch w atlas_name operation signal
    operation_type exc downloaded versions_call :
  selected_atlas_name (view w) = Ok atlas_name →
  let started :=
    workers w ++ [started_worker operation atlas_name signal operation_type] in
  confirmed_with operation signal operation_type (Raise exc) versions_call w =
    (Raise exc,
     {| view := view w; api := api w; dialogs := dialogs w;
        workers := started; emitted := emitted w |}) ∧
  confirmed_with operation signal operation_type (Ok downloaded) (Raise exc) w =
    (Raise exc,
     {| view :=
          {| model := model (view w); currentIndex := currentIndex (view w);
             cached_downloaded_atlases := Some downloaded;
             cached_atlas_versions := cached_atlas_versions (view w) |};
        api := api w; dialogs := dialogs w;
        workers := started; emitted := emitted w |}) ∧
  _on_download_atlas_confirmed w =
    confirmed_with install_atlas download_atlas_confirmed "Downloading"
      (Ok (get_downloaded_atlases (api w)))
      (Ok (get_atlases_lastversions (api w))) w ∧
  _on_update_atlas_confirmed w =
    confirmed_with update_atlas update_atlas_confirmed "Updating"
      (Ok (get_downloaded_atlases (api w)))
      (Ok (get_atlases_lastversions (api w))) w.
Proof.
  intros Hsel started. subst started.
  unfold confirmed_with, _on_download_atlas_confirmed,
    _on_update_atlas_confirmed, _start_worker, _refresh_cached_atlases,
    refresh_cached_atlases_with.
  unfold_M. rewrite Hsel. by split_and!.
Qed.

Lemma double_click_opens_well_formed w :
  (_on_row_double_clicked w).2 = w ∨
  ∃ d, dialog_well_formed d ∧
    (_on_row_double_clicked w).2 =
      {| view := view w; api := api w; dialogs := dialogs w ++ [d];
         workers := workers w; emitted := emitted w |}.
Proof.
  unfold _on_row_double_clicked. unfold_M.
  destruct (selected_atlas_name (view w)) as [atlas_name|]; [|by left].
  destruct (cached_downloaded_atlases (view w)) as [downloaded|]; [|by left].
  case_decide.
  - destruct (cached_atlas_versions (view w)) as [versions|]; [|by left].
    destruct (versions !! atlas_name) as [[[]]|]; simpl; [by left| |by left].
    right. eexists. split; [|reflexivity]. by right.
  - right. eexists. split; [|reflexivity]. by left.
Qed.

Lemma slot_worker_well_formed slot atlas_name :
  worker_well_formed (slot_worker slot atlas_name).
Proof. destruct slot; [left|right]; apply same_task_refl. Qed.

Lemma finish_well_formed k : worker_well_formed k → worker_well_formed (finish k).
Proof. unfold worker_well_formed, same_task. naive_solver. Qed.

Lemma run_slots_well_formed slots w :
  (run_slots slots w).2 = w ∨
  ∃ ks, Forall worker_well_formed ks ∧
    (run_slots slots w).2 =
      {| view := refreshed (view w) (api w); api := api w;
         dialogs := dialogs w; workers := workers w ++ ks;
         emitted := emitted w |}.
Proof.
  revert w. induction slots as [|slot rest IH]; intros w; [by left|].
  simpl. unfold mbind, M_bind.
  destruct (selected_atlas_name (view w)) as [atlas_name|exc] eqn:Hsel.
  - right. rewrite (run_slot_selected _ _ _ Hsel).
    destruct (IH (dispatched w (slot_worker slot atlas_name)))
      as [->|(ks & Hks & ->)].
    + exists [slot_worker slot atlas_name].
      split; [|done]. constructor; [apply slot_worker_well_formed|done].
    + exists (slot_worker slot atlas_name :: ks).
      split; [constructor; [apply slot_worker_well_formed|done]|].
      cbn [view api dialogs workers emitted]. by rewrite <- app_assoc.
  - left. by rewrite (confirmed_unselected _ _ _ Hsel).
Qed.

Lemma step_well_formed e w : well_formed w → well_formed (step' e w).2.
Proof.
  intros [Hdialogs Hworkers].
  destruct e as [idx| |i|j c t|j r|name|a];
    try rewrite tooltip_request_world; try done.
  - change (step' DoubleClicked w) with (_on_row_double_clicked w).
    destruct (double_click_opens_well_formed w) as [->|(d & Hd & ->)]; [done|].
    split; [|done]. cbn [dialogs]. apply Forall_app. by split; [|constructor].
  - simpl. unfold ok_button_click. destruct (dialogs w !! i) as [d|]; [|done].
    destruct (run_slots_well_formed (ok_button_clicked d) w)
      as [->|(ks & Hks & ->)]; [done|].
    split; [done|]. cbn [workers]. by apply Forall_app.
  - simpl. by destruct (worker_progress_effect w j c t) as [es ->].
  - simpl. destruct (worker_return_world w j r) as [->|(k & es & Hk & _ & ->)];
      [done|].
    split; [done|]. cbn [workers]. apply Forall_insert; [done|].
    apply finish_well_formed.
    by eapply (proj1 (Forall_lookup _ _) Hworkers).
Qed.

Lemma run_preserves_well_formed events w :
  well_formed w → well_formed (run' events w).
Proof.
  revert w. induction events as [|e rest IH]; intros w Hw; [done|].
  cbn [run]. by apply IH, step_well_formed.
Qed.

(** X9: every dialog and every worker of the view is well formed, and
    stays so.  Through any run of events each dialog has exactly one slot
    connected, the one of its action label, and each worker pairs
    [install_atlas] with [download_atlas_confirmed] and "Downloading",
    [update_atlas] with [update_atlas_confirmed] and "Updating", with one
    signal connected and its own argument captured in its callback. *)
Theorem run_well_formed events w :
  well_formed w → well_formed (run' events w).
Proof. apply run_preserves_well_formed. Qed.

(** X10: in a world reached from a well-formed one, whichever worker is
    running, its return emits exactly one completion signal, the one of
    its operation, when the [str] signal accepts the result, and nothing
    when it refuses it; and a progress report emits exactly one
    [progress_updated] that holds the two counts as [int] arguments and
    names the worker's own atlas and the kind of its operation. *)
Theorem reachable_worker_notifications events w j k :
  well_formed w →
  let w1 := run' events w in
  workers w1 !! j = Some k →
  is_running k →
  (∀ result payload,
     str_argument result = Ok payload →
     emitted (step' (WorkerReturned j result) w1).2 =
       emitted w1 ++ [emit (operation_signal (worker_apply k)) payload]) ∧
  (∀ result exc,
     str_argument result = Raise exc →
     (step' (WorkerReturned j result) w1).1 = Raise exc ∧
     emitted (step' (WorkerReturned j result) w1).2 = emitted w1) ∧
  (∀ completed total,
     emitted (step' (ProgressReported j completed total) w1).2 =
       emitted w1 ++
         [emit_progress_updated (int_argument completed) (int_argument total)
            (worker_arg k) (operation_kind (worker_apply k))]).
Proof.
  intros Hw w1 Hk Hrun.
  assert (worker_well_formed k) as Hwf.
  { destruct (run_preserves_well_formed events w Hw) as [_ Hworkers].
    by eapply (proj1 (Forall_lookup _ _) Hworkers). }
  split_and!.
  - intros result payload Hpayload.
    change (step' (WorkerReturned j result) w1) with (worker_return j result w1).
    rewrite (worker_return_accepted _ _ _ _ _ Hk Hrun Hpayload).
    cbn [snd emitted].
    by destruct Hwf as [(Hop & _ & _ & Hret)|(Hop & _ & _ & Hret)];
      simpl in Hop, Hret; rewrite Hop, Hret.
  - intros result exc Hrefused.
    change (step' (WorkerReturned j result) w1) with (worker_return j result w1).
    by destruct Hwf as [(_ & _ & _ & Hret)|(_ & _ & _ & Hret)];
      simpl in Hret;
      rewrite (worker_return_refused _ _ _ _ _ _ _ Hk Hrun Hret Hrefused).
  - intros completed total. simpl.
    rewrite (worker_progress_running _ _ _ _ _ Hk Hrun). cbn [snd emitted].
    by destruct Hwf as [(Hop & _ & Hfn & _)|(Hop & _ & Hfn & _)];
      simpl in Hop, Hfn; rewrite Hop, Hfn.
Qed.

(** X11: a refresh that fails at its second call leaves a mixed cache.
    After a confirmation whose second call of the API raised, a
    double-click on a row whose atlas is in the downloaded set just
    assigned raises [AttributeError] for [cached_atlas_versions] if that
    attribute had never been assigned, and [KeyError] if the versions
    assigned earlier have no entry for the atlas; it opens no dialog. *)
Theorem double_click_after_failed_refresh w atlas_name operation signal
    operation_type exc downloaded :
  selected_atlas_name (view w) = Ok atlas_name →
  atlas_name ∈ downloaded →
  let w1 :=
    (confirmed_with operation signal operation_type (Ok downloaded)
       (Raise exc) w).2 in
  cached_downloaded_atlases (view w1) = Some downloaded ∧
  cached_atlas_versions (view w1) = cached_atlas_versions (view w) ∧
  (cached_atlas_versions (view w) = None →
   step' DoubleClicked w1 =
     (Raise (AttributeError "cached_atlas_versions"), w1)) ∧
  (∀ versions,
     cached_atlas_versions (view w) = Some versions →
     versions !! atlas_name = None →
     step' DoubleClicked w1 = (Raise (KeyError atlas_name), w1)).
Proof.
  intros Hsel Hin w1.
  assert (selected_atlas_name (view w1) = Ok atlas_name ∧
          cached_downloaded_atlases (view w1) = Some downloaded ∧
          cached_atlas_versions (view w1) = cached_atlas_versions (view w))
    as (Hsel1 & Hdownloaded & Hversions).
  { subst w1.
    unfold confirmed_with, _start_worker, refresh_cached_atlases_with.
    unfold_M. by rewrite Hsel. }
  split_and!; [done..| |].
  - intros Hnone.
    change (step' DoubleClicked w1) with (_on_row_double_clicked w1).
    unfold _on_row_double_clicked. unfold_M.
    rewrite Hsel1, Hdownloaded. rewrite decide_True by done.
    by rewrite Hversions, Hnone.
  - intros versions Hsome Hentry.
    change (step' DoubleClicked w1) with (_on_row_double_clicked w1).
    unfold _on_row_double_clicked. unfold_M.
    rewrite Hsel1, Hdownloaded. rewrite decide_True by done.
    by rewrite Hversions, Hsome, Hentry.
Qed.

End Dispatch.

Section Staleness.

Variable format_atlas_name : string -> string.

Implicit Types (w : World) (e : Event)
  (events : list Event).

Local Abbreviation step' := (step format_atlas_name).
Local Abbreviation run' := (run format_atlas_name).

Lemma step_keeps_view e w :
  keeps_view e = true → view (step' e w).2 = view w.
Proof.
  intros Hkeeps.
  destruct e as [idx| |i|j c t|j r|name|a];
    try rewrite tooltip_request_world; try done.
  - change (step' DoubleClicked w) with (_on_row_double_clicked w).
    by destruct (double_click_effect w) as [->|[d ->]].
  - simpl. by destruct (worker_progress_effect w j c t) as [es ->].
  - simpl. by rewrite worker_return_cache.
Qed.

Lemma run_keeps_view events w :
  forallb keeps_view events = true → view (run' events w) = view w.
Proof.
  revert w. induction events as [|e rest IH]; intros w Hkeeps; [done|].
  cbn [forallb] in Hkeeps. apply andb_true_iff in Hkeeps as [He Hrest].
  cbn [run]. rewrite IH by done. by apply step_keeps_view.
Qed.

(** X12: the refresh at dispatch is the last look at the API.  Once a
    dialog has been confirmed for an atlas that the API did not list as
    downloaded, then whatever follows short of another press on ok or a
    move of the selection (the worker returning, the API coming to list
    the atlas), a double-click on the same row opens a Download dialog
    again. *)
Theorem download_offered_again w i dialog_atlas action slot atlas_name events :
  dialogs w !! i = Some (opened_dialog dialog_atlas action slot) →
  selected_atlas_name (view w) = Ok atlas_name →
  atlas_name ∉ get_downloaded_atlases (api w) →
  forallb keeps_view events = true →
  let w1 := run' events (step' (OkClicked i) w).2 in
  step' DoubleClicked w1 =
    (Ok tt,
     {| view := view w1; api := api w1;
        dialogs := dialogs w1 ++
          [opened_dialog atlas_name "Download" slot_on_download_atlas_confirmed];
        workers := workers w1; emitted := emitted w1 |}).
Proof.
  intros Hd Hsel Hout Hkeeps w1.
  assert (view w1 = refreshed (view w) (api w)) as Hview.
  { subst w1. rewrite run_keeps_view by done.
    by rewrite (ok_click_selected format_atlas_name _ _ _ _ _ _ Hd Hsel). }
  change (step' DoubleClicked w1) with (_on_row_double_clicked w1).
  apply double_click_not_downloaded with (get_downloaded_atlases (api w));
    rewrite ?Hview; done.
Qed.

(** X13: who can do what.  Only a press on ok changes the number of
    workers, only a double-click changes the dialogs, and only a progress
    report or the return of a worker changes what has been emitted. *)
Theorem step_frame e w :
  (is_ok_click e = false →
   length (workers (step' e w).2) = length (workers w)) ∧
  (is_double_click e = false → dialogs (step' e w).2 = dialogs w) ∧
  (is_worker_event e = false → emitted (step' e w).2 = emitted w).
Proof.
  destruct e as [idx| |i|j c t|j r|name|a];
    try rewrite tooltip_request_world; try done.
  - change (step' DoubleClicked w) with (_on_row_double_clicked w).
    destruct (double_click_effect w) as [->|[d ->]]; done.
  - simpl. unfold ok_button_click. destruct (dialogs w !! i) as [d|]; [|done].
    destruct (run_slots_effect (ok_button_clicked d) w)
      as [->|(ks & _ & _ & ->)]; done.
  - simpl. by destruct (worker_progress_effect w j c t) as [es ->].
  - simpl. destruct (worker_return_world w j r) as [->|(k & es & _ & _ & ->)];
      [done|].
    split_and!; [intros _; apply length_insert|done..].
Qed.

End Staleness.

(** ** The further properties on concrete worlds *)

Lemma get_tooltip_text_inversion_witness :
  "example_mouse_100um" ∈ get_downloaded_atlases demo_api ∨
  "example_mouse_100um" ∈ dom (get_all_atlases_lastversions demo_api).
Proof.
  destruct (get_tooltip_text_inversion id demo_api "example_mouse_100um"
              "example_mouse_100um (double-click to update)" eq_refl)
    as [[Hin _]|(_ & Hlisted & _)]; [by left | by right].
Defined.

Lemma double_click_missing_entry_witness :
  step id DoubleClicked (orphan_world 0) =
    (Raise (KeyError "custom_atlas_10um"), orphan_world 0).
Proof.
  apply (double_click_missing_entry id (orphan_world 0) "custom_atlas_10um"
           (get_downloaded_atlases orphan_api)
           (get_atlases_lastversions orphan_api)
           eq_refl eq_refl ltac:(compute_done) eq_refl eq_refl).
Defined.

Lemma synced_double_click_and_tooltip_witness :
  (get_tooltip_text id demo_api "allen_mouse_100um" =
     Ok "allen_mouse_100um is up-to-date" ∧
   step id DoubleClicked (demo_world 0) = (Ok tt, demo_world 0)) ∧
  (get_tooltip_text id orphan_api "custom_atlas_10um" =
     Raise (KeyError "custom_atlas_10um") ∧
   step id DoubleClicked (orphan_world 0) =
     (Raise (KeyError "custom_atlas_10um"), orphan_world 0)) ∧
  (get_tooltip_text id demo_api "mpin_zfish_1um" =
     Ok "mpin_zfish_1um (double-click to download)" ∧
   dialogs (step id DoubleClicked (demo_world 2)).2 =
     [opened_dialog "mpin_zfish_1um" "Download"
        slot_on_download_atlas_confirmed]).
Proof.
  split; [|split].
  - apply (proj1 (synced_double_click_and_tooltip id (demo_world 0)
                    "allen_mouse_100um" eq_refl eq_refl)
             {| updated := true |}); [compute_done | reflexivity | reflexivity].
  - apply (proj1 (proj2 (proj2 (synced_double_click_and_tooltip id
                    (orphan_world 0) "custom_atlas_10um" eq_refl eq_refl))));
      [compute_done | reflexivity].
  - destruct (proj2 (proj2 (proj2 (synced_double_click_and_tooltip id
                (demo_world 2) "mpin_zfish_1um" eq_refl eq_refl)))
                ltac:(compute_done) ltac:(compute_done)) as [Htip Hclick].
    split; [exact Htip|]. exact (f_equal (fun r => dialogs r.2) Hclick).
Defined.

Lemma stale_cache_offers_download_witness :
  get_tooltip_text id demo_api_installed "mpin_zfish_1um" =
    Ok "mpin_zfish_1um is up-to-date" ∧
  dialogs (step id DoubleClicked outdated_world).2 =
    [opened_dialog "mpin_zfish_1um" "Download" slot_on_download_atlas_confirmed].
Proof.
  apply (stale_cache_offers_download id outdated_world "mpin_zfish_1um"
           (get_downloaded_atlases demo_api) {| updated := true |}
           eq_refl eq_refl ltac:(compute_done) ltac:(compute_done) eq_refl).
Defined.

Lemma confirm_uses_current_selection_witness :
  step id (OkClicked 0)
    (run id [DoubleClicked; CurrentIndexChanged (at_row 0)] (demo_world 2)) =
    (Ok tt,
     {| view := demo_view 0; api := demo_api;
        dialogs :=
          [opened_dialog "mpin_zfish_1um" "Download"
             slot_on_download_atlas_confirmed];
        workers :=
          [started_worker install_atlas "allen_mouse_100um"
             download_atlas_confirmed "Downloading"];
        emitted := [] |}).
Proof.
  apply (confirm_uses_current_selection id
           (run id [DoubleClicked; CurrentIndexChanged (at_row 0)] (demo_world 2))
           0 "mpin_zfish_1um" "Download" slot_on_download_atlas_confirmed
           "allen_mouse_100um" eq_refl eq_refl).
Defined.

Lemma confirm_n_times_witness :
  workers (run id (replicate 3 (OkClicked 0)) stale_world) =
    replicate 3
      (started_worker install_atlas "mpin_zfish_1um" download_atlas_confirmed
         "Downloading").
Proof.
  apply (confirm_n_times id stale_world 0 "mpin_zfish_1um" "Download"
           slot_on_download_atlas_confirmed "mpin_zfish_1um" 3 eq_refl eq_refl).
Defined.

Lemma refresh_failure_after_dispatch_witness :
  workers
    (confirmed_with install_atlas download_atlas_confirmed "Downloading"
       (Ok (get_downloaded_atlases demo_api)) (Raise (ValueError "offline"))
       stale_world).2 =
    [started_worker install_atlas "mpin_zfish_1um" download_atlas_confirmed
       "Downloading"] ∧
  cache
    (view
       (confirmed_with install_atlas download_atlas_confirmed "Downloading"
          (Ok (get_downloaded_atlases demo_api)) (Raise (ValueError "offline"))
          stale_world).2) =
    (Some (get_downloaded_atlases demo_api), Some ∅).
Proof.
  pose proof (proj1 (proj2 (refresh_failure_after_dispatch stale_world
                "mpin_zfish_1um" install_atlas download_atlas_confirmed
                "Downloading" (ValueError "offline")
                (get_downloaded_atlases demo_api)
                (Raise (ValueError "offline")) eq_refl))) as Hfailed.
  split.
  - exact (f_equal (fun r => workers r.2) Hfailed).
  - exact (f_equal (fun r => cache (view r.2)) Hfailed).
Defined.

Lemma run_well_formed_witness :
  well_formed
    (run id [DoubleClicked; OkClicked 0; WorkerReturned 0 "done"; DoubleClicked]
       (demo_world 2)).
Proof.
  apply (run_well_formed id _ (demo_world 2)). split; constructor.
Defined.

Lemma reachable_worker_notifications_witness :
  emitted
    (step id (WorkerReturned 0 "done")
       (run id [DoubleClicked; OkClicked 0] (demo_world 1))).2 =
    [emit update_atlas_confirmed "done"].
Proof.
  apply (proj1 (reachable_worker_notifications id
                  [DoubleClicked; OkClicked 0] (demo_world 1) 0
                  (started_worker update_atlas "example_mouse_100um"
                     update_atlas_confirmed "Updating")
                  ltac:(split; constructor) eq_refl eq_refl) "done" "done"
           eq_refl).
Defined.

Lemma double_click_after_failed_refresh_witness :
  let w1 :=
    (confirmed_with install_atlas download_atlas_confirmed "Downloading"
       (Ok (get_downloaded_atlases demo_api_installed))
       (Raise (ValueError "offline")) stale_world).2 in
  step id DoubleClicked w1 = (Raise (KeyError "mpin_zfish_1um"), w1).
Proof.
  apply (proj2 (proj2 (proj2 (double_click_after_failed_refresh id stale_world
           "mpin_zfish_1um" install_atlas download_atlas_confirmed
           "Downloading" (ValueError "offline")
           (get_downloaded_atlases demo_api_installed) eq_refl
           ltac:(compute_done)))) ∅ eq_refl eq_refl).
Defined.

Lemma download_offered_again_witness :
  dialogs
    (run id
       [OkClicked 0; ApiChanged demo_api_installed; WorkerReturned 0 "done";
        DoubleClicked]
       stale_world) =
    [opened_dialog "mpin_zfish_1um" "Download" slot_on_download_atlas_confirmed;
     opened_dialog "mpin_zfish_1um" "Download" slot_on_download_atlas_confirmed].
Proof.
  exact (f_equal (fun r => dialogs r.2)
           (download_offered_again id stale_world 0 "mpin_zfish_1um" "Download"
              slot_on_download_atlas_confirmed "mpin_zfish_1um"
              [ApiChanged demo_api_installed; WorkerReturned 0 "done"]
              eq_refl eq_refl ltac:(compute_done) eq_refl)).
Defined.

Lemma step_frame_witness :
  length (workers (step id DoubleClicked (demo_world 2)).2) = 0 ∧
  dialogs (step id (OkClicked 0) stale_world).2 = dialogs stale_world ∧
  emitted (step id (OkClicked 0) stale_world).2 = [].
Proof.
  split_and!.
  - apply (proj1 (step_frame id DoubleClicked (demo_world 2)) eq_refl).
  - apply (proj1 (proj2 (step_frame id (OkClicked 0) stale_world)) eq_refl).
  - apply (proj2 (proj2 (step_frame id (OkClicked 0) stale_world)) eq_refl).
Defined.
